(** * Book statistics: word counts, word frequencies, token counts and cost

    A shallow embedding of the two analyzers of the repository,
    [book_summarizer/book_analyzer.py] (class [BookAnalyzer], the packaged
    analyzer with the tabular report) and [book_analyzer.py] (class
    [EpubWordAnalyzer], the flat script with the plain-text report), and the
    properties of their counting, ordering, costing and report writing.

    Python values are modelled as follows.
    - [int] counts are [nat] (they are lengths and sums of lengths).
    - [str] is [string]; [" ".join(xs)] is [String.concat " " xs].
    - A [dict] keeps insertion order, so it is an association list in which a
      key occurs once: [dict_set] overwrites in place or appends.
    - An exception is a [Raise] in the [result] monad. Code that touches the
      file system runs in [IO], a state monad over the files in which the
      state survives an exception. The body of a [with open(...)] block is a
      [Block]: how it ends together with the text it wrote, which is in the
      file afterwards also when the body raised.
    - The [float] cost is an exact rational of [Q]: the rounding of binary
      floating point is not modelled. *)

From Stdlib Require Import QArith.
From Stdlib Require Import Ascii DecimalString DecimalNat.
From stdpp Require Import gmap strings list sorting.

Local Open Scope string_scope.
Local Open Scope list_scope.
Local Open Scope nat_scope.

(** ** Python built-ins used by the analyzers *)

Module Py.

(** [sum(xs)]: left to right, from 0. *)
Definition sum (xs : list nat) : nat := foldl Nat.add 0 xs.

(** [sep.join(xs)]. *)
Definition join (sep : string) (xs : list string) : string :=
  String.concat sep xs.

(** The characters of a [str], as iterating over it yields them. *)
Definition chars (s : string) : list string :=
  (λ c, String c EmptyString) <$> String.list_ascii_of_string s.

(** [enumerate(xs)]. *)
Definition enumerate {A} (xs : list A) : list (nat * A) :=
  zip (seq 0 (length xs)) xs.

(** A [dict] with [str] keys, in insertion order. *)
Definition dict (V : Type) : Type := list (string * V).

Fixpoint dict_get {V} (d : dict V) (k : string) : option V :=
  match d with
  | [] => None
  | (k', v) :: d' => if decide (k' = k) then Some v else dict_get d' k
  end.

(** [d[k] = v]: an existing key keeps its place, a new one goes last. *)
Fixpoint dict_set {V} (d : dict V) (k : string) (v : V) : dict V :=
  match d with
  | [] => [(k, v)]
  | (k', v') :: d' =>
      if decide (k' = k) then (k', v) :: d' else (k', v') :: dict_set d' k v
  end.

Definition dict_keys {V} (d : dict V) : list string := fst <$> d.
Definition dict_values {V} (d : dict V) : list V := snd <$> d.

(** [dict(pairs)]. *)
Definition dict_of_pairs {V} (pairs : list (string * V)) : dict V :=
  foldl (λ d kv, dict_set d kv.1 kv.2) [] pairs.

(** [collections.Counter(xs)]: [self[x] = self.get(x, 0) + 1] for each
    element in turn. *)
Definition Counter (xs : list string) : dict nat :=
  foldl (λ d x, dict_set d x (default 0 (dict_get d x) + 1)) [] xs.

(** [sorted(xs, key=itemgetter(1), reverse=True)], the body of
    [Counter.most_common()]. Python's sort is stable, also under
    [reverse=True]: items with equal keys keep their order. The model is
    the insertion sort that places an item before the first one whose
    count is not larger. *)
Fixpoint insert_desc (x : string * nat) (l : list (string * nat))
  : list (string * nat) :=
  match l with
  | [] => [x]
  | y :: l' => if decide (x.2 < y.2) then y :: insert_desc x l' else x :: l
  end.

Definition sorted_by_count_desc (l : list (string * nat))
  : list (string * nat) :=
  foldr insert_desc [] l.

Definition most_common (c : dict nat) : list (string * nat) :=
  sorted_by_count_desc c.

End Py.

(** ** Exceptions, fallible computations and the file system *)

Inductive exn : Set :=
| ExtractionError | EncodingError | IOError | KeyError | IndexError.

Inductive result (A : Type) : Type :=
| Ok (a : A)
| Raise (e : exn).
Arguments Ok {A} a.
Arguments Raise {A} e.

#[global] Instance result_ret : MRet result := @Ok.
#[global] Instance result_bind : MBind result := λ A B f m,
  match m with Ok a => f a | Raise e => Raise e end.
#[global] Instance result_fmap : FMap result := λ A B f m,
  match m with Ok a => Ok (f a) | Raise e => Raise e end.

(** [o] when it is there, otherwise the exception [e] is raised. *)
Definition or_raise {A} (e : exn) (o : option A) : result A :=
  match o with Some a => Ok a | None => Raise e end.

(** The files, by path, and the paths that cannot be opened for writing. *)
Record world : Type := World {
  files : gmap string string;
  denied : gset string
}.

(** A computation on the files. The world it returns is the one left
    behind, also when it raises. *)
Definition IO (A : Type) : Type := world → result A * world.

#[global] Instance IO_ret : MRet IO := λ A a w, (Ok a, w).
#[global] Instance IO_bind : MBind IO := λ A B f m w,
  match m w with
  | (Ok a, w') => f a w'
  | (Raise e, w') => (Raise e, w')
  end.

Definition lift {A} (r : result A) : IO A := λ w, (r, w).

(** What a [with open(path, "w") as file] block does with [file]: how the
    block ends, and the text it has written by then, in order. The text
    reaches the file when the block is left, on every exit path. *)
Definition Block (A : Type) : Type := (result A * string)%type.

#[global] Instance Block_ret : MRet Block := λ A a, (Ok a, "").
#[global] Instance Block_bind : MBind Block := λ A B f m,
  match m with
  | (Ok a, written) => let '(r, more) := f a in (r, written +:+ more)
  | (Raise e, written) => (Raise e, written)
  end.

(** [for x in xs: body(x)] inside the block. *)
Fixpoint for_each {A} (xs : list A) (body : A → Block ()) : Block () :=
  match xs with
  | [] => mret ()
  | x :: xs' => body x ;; for_each xs' body
  end.

Module File.

(** [file.write(s)]. *)
Definition write (s : string) : Block () := (Ok (), s).

(** A computation that does not write, inside the block. *)
Definition quiet {A} (r : result A) : Block A := (r, "").

(** [with open(path, "w") as file: body]. Opening creates the file, or
    empties it when it exists; what [body] wrote is in the file afterwards,
    also when [body] raised. *)
Definition with_open_w {A} (path : string) (body : Block A) : IO A := λ w,
  if decide (path ∈ denied w) then (Raise IOError, w)
  else (body.1, World (<[path := body.2]> (files w)) (denied w)).

End File.

(** ** Formatting *)

Module Fmt.

Definition LF : string := String (Ascii.ascii_of_nat 10) EmptyString.

(** [str(n)] and [f"{n}"]. *)
Definition decimal (n : nat) : string :=
  NilZero.string_of_uint (Nat.to_uint n).

Fixpoint group3 (rev_digits : list Ascii.ascii) : list Ascii.ascii :=
  match rev_digits with
  | a :: b :: c :: ((_ :: _) as more) =>
      a :: b :: c :: ","%char :: group3 more
  | _ => rev_digits
  end.

(** [f"{n:,}"]. *)
Definition comma (n : nat) : string :=
  String.string_of_list_ascii
    (reverse (group3 (reverse (String.list_ascii_of_string (decimal n))))).

Definition round_half_even (n : Z) (d : positive) : Z :=
  let k := (n / Z.pos d)%Z in
  let r := (n mod Z.pos d)%Z in
  if (2 * r <? Z.pos d)%Z then k
  else if (2 * r =? Z.pos d)%Z then (if Z.even k then k else k + 1)%Z
  else (k + 1)%Z.

(** [f"{q:.<prec>f}"]. *)
Definition fixed (prec : nat) (q : Q) : string :=
  let scale := (10 ^ Z.of_nat prec)%Z in
  let k := round_half_even (Z.abs (Qnum q) * scale) (Qden q) in
  let frac := decimal (Z.to_nat (k mod scale)) in
  (if (Qnum q <? 0)%Z then "-" else "")
  +:+ decimal (Z.to_nat (k / scale))
  +:+ (if decide (prec = 0) then ""
       else "." +:+ String.string_of_list_ascii
                      (replicate (prec - String.length frac) "0"%char)
                +:+ frac).

End Fmt.

(** ** Collaborators

    What the analyzers import and this development does not define: the
    chapter extractor, NLTK's word tokenizer, the per-model encoder, the
    two model clients of [llm_core], the price table of the flat script and
    [os.path.splitext]. *)

(** A pricing model: its name and its price per 1000 encoded tokens. *)
Record LLMClient : Type := {
  model_name : string;
  price_per_1000 : Q
}.

Class Collaborators : Type := {
  (** [EpubExtractor(path)._get_chapters()], [None] when it raises. *)
  get_chapters : string → option (list string);
  (** [nltk.tokenize.word_tokenize]. *)
  word_tokenize : string → list string;
  (** The encoder of a model on a text, [None] when it raises. *)
  encode_tokens : LLMClient → string → option (list nat);
  (** [GPT4oMini()] and [GPT4O()]. *)
  GPT4oMini : LLMClient;
  GPT4O : LLMClient;
  (** [CostCalculator.model_costs] of the flat script, by model name. *)
  model_costs : Py.dict Q;
  (** [os.path.splitext(path)[0]]. *)
  splitext_root : string → string
}.

(** ** The cost calculator *)

Module CostCalculator.

(** Modelled from the spec: [cost_calculator.py] is not among the sources.
    The spec gives the cost of a text for a model as
    [(encoded_token_count(text, model) / 1000.0) * model.price_per_1000];
    [cost_of_tokens] is that formula on the token count. *)
Definition cost_of_tokens (price : Q) (token_count : nat) : Q :=
  (inject_Z (Z.of_nat token_count) / 1000) * price.

Section Calculator.
Context `{Collaborators}.

(** [CostCalculator(model).encoding.encode(text)]. *)
Definition encoding_encode (model : LLMClient) (text : string)
  : result (list nat) :=
  or_raise EncodingError (encode_tokens model text).

(** Modelled from the spec: [CostCalculator(model).calculate_cost(text)],
    the formula above on the length of the encoded text. *)
Definition calculate_cost (model : LLMClient) (text : string) : result Q :=
  tokens ← encoding_encode model text;
  mret (cost_of_tokens (price_per_1000 model) (length tokens)).

(** Modelled from the spec: [CostCalculator(model_name)] of the flat
    script, the pricing model of that name in [model_costs]. *)
Definition by_name (name : string) : result LLMClient :=
  price ← or_raise KeyError (Py.dict_get model_costs name);
  mret {| model_name := name; price_per_1000 := price |}.

End Calculator.

End CostCalculator.

(** ** The packaged analyzer: [book_summarizer/book_analyzer.py] *)

Module BookAnalyzer.

Record t : Type := {
  epub_path : string;
  chapters : list string;
  tokenized_chapters : list (list string)
}.

Section Analyzer.
Context `{Collaborators}.

(** The analyzer [__init__] builds from the extracted chapters. *)
Definition make (path : string) (chs : list string) : t :=
  {| epub_path := path;
     chapters := chs;
     tokenized_chapters := word_tokenize <$> chs |}.

Definition init (path : string) : result t :=
  chs ← or_raise ExtractionError (get_chapters path);
  mret (make path chs).

Definition default_save_path (self : t) : string :=
  splitext_root (epub_path self) +:+ "_stats.md".

Definition word_counts (self : t) : nat * list nat :=
  let total_word_count := Py.sum (length <$> tokenized_chapters self) in
  let chapter_word_counts := length <$> tokenized_chapters self in
  (total_word_count, chapter_word_counts).

Definition models : list LLMClient := [GPT4oMini; GPT4O].

(** One turn of the loop of [token_counts]: the chapters are encoded
    once for the total and once more for the list. *)
Definition token_counts_of (self : t) (model : LLMClient)
  : result (nat * list nat) :=
  summed ← mapM (λ chapter,
              length <$> CostCalculator.encoding_encode model chapter)
            (chapters self);
  let total_token_count := Py.sum summed in
  chapter_token_counts ←
    mapM (λ chapter,
            length <$> CostCalculator.encoding_encode model chapter)
         (chapters self);
  mret (total_token_count, chapter_token_counts).

Fixpoint token_counts_loop (self : t) (todo : list LLMClient)
    (token_counts : Py.dict (nat * list nat))
  : result (Py.dict (nat * list nat)) :=
  match todo with
  | [] => mret token_counts
  | model :: todo' =>
      counts ← token_counts_of self model;
      token_counts_loop self todo'
        (Py.dict_set token_counts (model_name model) counts)
  end.

Definition token_counts (self : t) : result (Py.dict (nat * list nat)) :=
  token_counts_loop self models [].

Definition all_tokens (self : t) : list string :=
  concat (tokenized_chapters self).

Definition word_frequencies (self : t) : Py.dict nat :=
  let frequency := Py.Counter (all_tokens self) in
  Py.dict_of_pairs (Py.most_common frequency).

Definition full_text (self : t) : string :=
  Py.join " " (Py.join " " <$> tokenized_chapters self).

Definition calculate_cost (self : t) (model_client : LLMClient)
  : result Q :=
  CostCalculator.calculate_cost model_client (full_text self).

(** [save_path or self._default_save_path()]: [None] and the empty string
    are both falsy. *)
Definition resolve_save_path (self : t) (save_path : option string) : string :=
  match save_path with
  | Some p => if decide (p = "") then default_save_path self else p
  | None => default_save_path self
  end.

(** The row of the cost table for one model. *)
Definition write_cost_row (self : t) (model : LLMClient) : Block () :=
  cost ← File.quiet (calculate_cost self model);
  File.write
    ("| " +:+ model_name model +:+ " | $" +:+ Fmt.fixed 2 cost +:+ " |"
          +:+ Fmt.LF).

(** [f"{token_counts[model][1][i]:,}"]. *)
Definition token_cell (token_counts : Py.dict (nat * list nat)) (i : nat)
    (model : string) : result string :=
  counts ← or_raise KeyError (Py.dict_get token_counts model);
  n ← or_raise IndexError (counts.2 !! i);
  mret (Fmt.comma n).

(** The row of the per-chapter table for chapter [i]. *)
Definition write_chapter_row
    (token_counts : Py.dict (nat * list nat)) (models : list string)
    (row : nat * nat) : Block () :=
  let '(i, word_count) := row in
  cells ← File.quiet (mapM (token_cell token_counts i) models);
  let token_counts_row := Py.join " | " cells in
  File.write
    ("| " +:+ Fmt.decimal (i + 1) +:+ " | " +:+ Fmt.comma word_count
          +:+ " | " +:+ token_counts_row +:+ " |" +:+ Fmt.LF).

Definition frequency_row (word : string) (frequency : nat) : string :=
  "| " +:+ word +:+ " | " +:+ Fmt.decimal frequency +:+ " |" +:+ Fmt.LF.

(** The loop over [enumerate(word_frequencies.items())], left by [break]
    at index 200. *)
Fixpoint write_frequency_rows (items : list (nat * (string * nat)))
  : Block () :=
  match items with
  | [] => mret ()
  | (i, (word, frequency)) :: items' =>
      if decide (200 ≤ i)%nat then mret ()
      else File.write (frequency_row word frequency) ;;
           write_frequency_rows items'
  end.

(** The block up to the word-frequency section. *)
Definition write_tables (self : t) (total_word_count : nat)
    (chapter_word_counts : list nat) (token_counts : Py.dict (nat * list nat))
    (models : list string) : Block () :=
  File.write ("# Book Statistics" +:+ Fmt.LF +:+ Fmt.LF) ;;
  File.write ("## Overview" +:+ Fmt.LF +:+ Fmt.LF) ;;
  File.write
    ("Total Word Count: " +:+ Fmt.comma total_word_count
                          +:+ Fmt.LF +:+ Fmt.LF) ;;
  File.write ("| Model | Cost |" +:+ Fmt.LF) ;;
  File.write ("|-------|------|" +:+ Fmt.LF) ;;
  for_each [GPT4oMini; GPT4O] (write_cost_row self) ;;
  File.write Fmt.LF ;;
  File.write ("## Word and Token Counts per Chapter" +:+ Fmt.LF +:+ Fmt.LF) ;;
  File.write
    ("| Chapter | Words |"
       +:+ Py.join " | " ((λ model, model +:+ " Tokens") <$> models)
       +:+ " |" +:+ Fmt.LF) ;;
  File.write
    ("|---------|-------|"
       +:+ Py.join " | " (replicate (length models) "--------")
       +:+ "|" +:+ Fmt.LF) ;;
  for_each (Py.enumerate chapter_word_counts)
           (write_chapter_row token_counts models).

(** The word-frequency section, which ends the block. *)
Definition write_frequencies (word_frequencies : Py.dict nat) : Block () :=
  File.write ("## Word Frequencies (First 200 Words)" +:+ Fmt.LF +:+ Fmt.LF) ;;
  File.write ("| Word | Frequency |" +:+ Fmt.LF) ;;
  File.write ("|------|-----------|" +:+ Fmt.LF) ;;
  write_frequency_rows (Py.enumerate word_frequencies) ;;
  File.write Fmt.LF.

(** The body of the [with open(save_path, "w") as file] block. *)
Definition write_report (self : t) (total_word_count : nat)
    (chapter_word_counts : list nat) (token_counts : Py.dict (nat * list nat))
    (word_frequencies : Py.dict nat) (models : list string) : Block () :=
  write_tables self total_word_count chapter_word_counts token_counts models ;;
  write_frequencies word_frequencies.

Definition write_statistics (self : t) (save_path : option string) : IO () :=
  let save_path := resolve_save_path self save_path in
  let '(total_word_count, chapter_word_counts) := word_counts self in
  token_counts ← lift (token_counts self);
  let word_frequencies := word_frequencies self in
  let models := Py.dict_keys token_counts in
  File.with_open_w save_path
    (write_report self total_word_count chapter_word_counts
                  token_counts word_frequencies models).

End Analyzer.

End BookAnalyzer.

(** ** The flat script: [book_analyzer.py] *)

Module EpubWordAnalyzer.

Record t : Type := {
  chapters : list string;
  tokenized_chapters : list (list string)
}.

Section Analyzer.
Context `{Collaborators}.

Definition make (chs : list string) : t :=
  {| chapters := chs; tokenized_chapters := word_tokenize <$> chs |}.

Definition init (epub_file : string) : result t :=
  chs ← or_raise ExtractionError (get_chapters epub_file);
  mret (make chs).

Definition get_word_counts (self : t) : nat * list nat :=
  let total_word_count := Py.sum (length <$> tokenized_chapters self) in
  let chapter_word_counts := length <$> tokenized_chapters self in
  (total_word_count, chapter_word_counts).

Definition get_word_frequency (self : t) : Py.dict nat :=
  let all_tokens := concat (tokenized_chapters self) in
  let frequency := Py.Counter all_tokens in
  let sorted_frequency := Py.dict_of_pairs (Py.most_common frequency) in
  sorted_frequency.

(** Here [chapter] is a [str] of [self.chapters], so the inner join runs
    over its characters. *)
Definition full_text (self : t) : string :=
  Py.join " " ((λ chapter, Py.join " " (Py.chars chapter)) <$> chapters self).

Definition calculate_book_cost (self : t) (name : string) : result Q :=
  calculator ← CostCalculator.by_name name;
  CostCalculator.calculate_cost calculator (full_text self).

Definition write_cost_line (self : t) (model : string) : Block () :=
  cost ← File.quiet (calculate_book_cost self model);
  File.write ("Cost for " +:+ model +:+ ": " +:+ Fmt.fixed 6 cost +:+ Fmt.LF).

(** The body of the [with open(output_file, "w") as file] block. *)
Definition write_report (self : t) (total_word_count : nat)
    (chapter_word_counts : list nat) (word_frequencies : Py.dict nat)
  : Block () :=
  File.write
    ("Total Word Count: " +:+ Fmt.decimal total_word_count
                          +:+ Fmt.LF +:+ Fmt.LF) ;;
  for_each (Py.enumerate chapter_word_counts)
    (λ '(i, count),
       File.write
         ("Chapter " +:+ Fmt.decimal (i + 1) +:+ " Word Count: "
                     +:+ Fmt.decimal count +:+ Fmt.LF)) ;;
  File.write (Fmt.LF +:+ "Cost Calculations for each model:" +:+ Fmt.LF) ;;
  for_each (Py.dict_keys model_costs) (write_cost_line self) ;;
  File.write (Fmt.LF +:+ "Word Frequencies (entire book):" +:+ Fmt.LF) ;;
  for_each word_frequencies
    (λ '(word, frequency),
       File.write (word +:+ ": " +:+ Fmt.decimal frequency +:+ Fmt.LF)).

Definition write_word_statistics (self : t) (output_file : string) : IO () :=
  let '(total_word_count, chapter_word_counts) := get_word_counts self in
  let word_frequencies := get_word_frequency self in
  File.with_open_w output_file
    (write_report self total_word_count chapter_word_counts word_frequencies).

End Analyzer.

End EpubWordAnalyzer.

(** ** The scripts: the [__main__] blocks of the two files

    A script is run on its argument list [argv] ([sys.argv], the script
    name first). It prints lines and ends with an exit code, or with an
    exception that nothing catches. Only [FileNotFoundError] is caught;
    which exceptions are of that class, and what [print(e)] shows for
    them, is left to the two parameters [is_file_not_found] and
    [message]. The download of the NLTK resources when the module is
    imported is outside the model. *)

Module Main.

Inductive outcome : Set :=
| Exit (code : nat)
| Uncaught (e : exn).

(** What a run of a script leaves: how it ended, the lines printed, the
    files. *)
Record finished : Type := Finished {
  ending : outcome;
  printed : list string;
  left_behind : world
}.

Section Scripts.
Context `{Collaborators}.
Variable is_file_not_found : exn → bool.
Variable message : exn → string.

Definition usage : string := "Usage: python epub_word_analyzer.py <epub_path>".

(** The [except FileNotFoundError as e] clause. *)
Definition handle (e : exn) (w : world) : finished :=
  if is_file_not_found e then Finished (Exit 1) [message e] w
  else Finished (Uncaught e) [] w.

(** [book_summarizer/book_analyzer.py] run as a script. *)
Definition run (argv : list string) (w : world) : finished :=
  match argv with
  | [_; epub_path] =>
      match BookAnalyzer.init epub_path with
      | Raise e => handle e w
      | Ok analyzer =>
          let output_file := splitext_root epub_path +:+ "_word_stats.md" in
          match BookAnalyzer.write_statistics analyzer (Some output_file) w with
          | (Raise e, w') => handle e w'
          | (Ok _, w') =>
              Finished (Exit 0)
                ["Word statistics extracted and saved to " +:+ output_file] w'
          end
      end
  | _ => Finished (Exit 1) [usage] w
  end.


End Scripts.

End Main.

(** ** Concrete collaborators, to run the analyzers on *)

Module Stub.

(** Words are the maximal runs of characters other than the space. *)
Fixpoint split_words_aux (word : string) (s : string) : list string :=
  match s with
  | EmptyString => if decide (word = "") then [] else [word]
  | String c s' =>
      if decide (c = " "%char)
      then (if decide (word = "") then [] else [word]) ++ split_words_aux "" s'
      else split_words_aux (word +:+ String c EmptyString) s'
  end.

Definition split_words (s : string) : list string := split_words_aux "" s.

(** One token for each character. *)
Definition encode_chars (s : string) : list nat :=
  Ascii.nat_of_ascii <$> String.list_ascii_of_string s.

Definition mini : LLMClient :=
  {| model_name := "gpt-4o-mini"; price_per_1000 := 1 # 100 |}.
Definition big : LLMClient :=
  {| model_name := "gpt-4o"; price_per_1000 := 2 # 100 |}.

Definition book : list string := ["the cat sat"; "the dog ran the cat"].

(** An encoder that takes every text. *)
Definition total : Collaborators :=
  {| get_chapters := λ _, Some book;
     word_tokenize := split_words;
     encode_tokens := λ _ text, Some (encode_chars text);
     GPT4oMini := mini;
     GPT4O := big;
     model_costs := [("gpt-4o-mini", 1 # 100); ("gpt-4o", 2 # 100)];
     splitext_root := λ path, path |}.

(** An encoder that raises on a text of more than [limit] characters. *)
Definition limited (limit : nat) : Collaborators :=
  {| get_chapters := λ _, Some book;
     word_tokenize := split_words;
     encode_tokens := λ _ text,
       if decide (String.length text ≤ limit)%nat
       then Some (encode_chars text) else None;
     GPT4oMini := mini;
     GPT4O := big;
     model_costs := [("gpt-4o-mini", 1 # 100); ("gpt-4o", 2 # 100)];
     splitext_root := λ path, path |}.

(** No file yet, every path writable. *)
Definition empty_world : world := World ∅ ∅.

End Stub.

(** ** Vocabulary of the properties *)

(** The index of the first occurrence of [w] in [xs], or the length of
    [xs] when there is none. *)
Fixpoint first_index (w : string) (xs : list string) : nat :=
  match xs with
  | [] => 0
  | x :: xs' => if decide (x = w) then 0 else S (first_index w xs')
  end.

(** How many times [w] occurs in [xs]. *)
Definition occurrences (w : string) (xs : list string) : nat :=
  length (filter (λ x, x = w) xs).

(** One element counted, as [Counter] does for each element in turn. *)
Definition count_one (d : Py.dict nat) (x : string) : Py.dict nat :=
  Py.dict_set d x (default 0 (Py.dict_get d x) + 1).

(** Larger count first; with equal counts, the order [before]. *)
Definition by_count_then (before : relation (string * nat))
  : relation (string * nat) :=
  λ x y, y.2 < x.2 ∨ (x.2 = y.2 ∧ before x y).

(** The order of the frequency table over the token stream [stream]:
    larger count first; with equal counts, earlier first occurrence in
    the stream first. *)
Definition ranked_before (stream : list string) : relation (string * nat) :=
  by_count_then
    (λ e1 e2, first_index e1.1 stream < first_index e2.1 stream).

(** The number of tokens the encoder of [model] gives for [text]; 0 when
    the encoder raises. *)
Definition encoded_length `{Collaborators} (model : LLMClient) (text : string)
  : nat :=
  length (default [] (encode_tokens model text)).

(** The number of tokens of one chapter, as [token_counts] computes it. *)
Definition count_tokens `{Collaborators} (model : LLMClient)
    (chapter : string) : result nat :=
  length <$> CostCalculator.encoding_encode model chapter.

(** The rows of the frequency table for [entries], one after the other. *)
Definition frequency_rows_text (entries : list (string * nat)) : string :=
  foldr (λ entry text, BookAnalyzer.frequency_row entry.1 entry.2 +:+ text)
        "" entries.

(** The three lines that open the word-frequency section. *)
Definition frequency_heading : string :=
  "## Word Frequencies (First 200 Words)" +:+ Fmt.LF +:+ Fmt.LF
  +:+ ("| Word | Frequency |" +:+ Fmt.LF)
  +:+ ("|------|-----------|" +:+ Fmt.LF).

(** The text of [n] spaces. *)
Definition spaces (n : nat) : string :=
  String.string_of_list_ascii (replicate n " "%char).

(** What the block has written when it reaches the rows of the cost
    table. *)
Definition report_opening (total_word_count : nat) : string :=
  ("# Book Statistics" +:+ Fmt.LF +:+ Fmt.LF)
  +:+ ("## Overview" +:+ Fmt.LF +:+ Fmt.LF)
  +:+ ("Total Word Count: " +:+ Fmt.comma total_word_count
                            +:+ Fmt.LF +:+ Fmt.LF)
  +:+ ("| Model | Cost |" +:+ Fmt.LF)
  +:+ ("|-------|------|" +:+ Fmt.LF).

(** [w'] differs from [w] at most in the file at [path]. *)
Definition changes_only (path : string) (w w' : world) : Prop :=
  denied w' = denied w ∧ ∀ p, p ≠ path → files w' !! p = files w !! p.

(** [w] with the text [old] in the file at [path]. *)
Definition with_file (path old : string) (w : world) : world :=
  World (<[path := old]> (files w)) (denied w).

(** The lines of the frequency listing of the flat script for [entries]. *)
Definition frequency_lines_text (entries : list (string * nat)) : string :=
  foldr (λ entry text,
           (entry.1 +:+ ": " +:+ Fmt.decimal entry.2 +:+ Fmt.LF) +:+ text)
        "" entries.

(** The heading of the frequency listing of the flat script. *)
Definition frequency_listing_heading : string :=
  Fmt.LF +:+ "Word Frequencies (entire book):" +:+ Fmt.LF.

(** A text without its commas. *)
Definition without_commas (s : string) : string :=
  String.string_of_list_ascii
    (filter (λ c, c ≠ ","%char) (String.list_ascii_of_string s)).

(** Reading a comma-grouped count back: the commas are dropped and the
    digits read as a decimal number. *)
Definition parse_count (s : string) : option nat :=
  Nat.of_uint <$> NilZero.uint_of_string (without_commas s).

(** What a word is counted as in a frequency table: its entry, or 0. *)
Definition count_in (table : Py.dict nat) (w : string) : nat :=
  default 0 (Py.dict_get table w).

(** What [token_counts] holds for a model when the encoder takes every
    chapter: the total and the per-chapter counts of the raw chapters. *)
Definition counts_for `{Collaborators} (model : LLMClient)
    (chs : list string) : nat * list nat :=
  let per := encoded_length model <$> chs in (sum_list per, per).

(** The lines of the flat report for the chapters, numbered from 1:
    [rows] are the chapters' word counts with their indices. *)
Definition chapter_lines_text (rows : list (nat * nat)) : string :=
  foldr (λ row text,
           ("Chapter " +:+ Fmt.decimal (row.1 + 1) +:+ " Word Count: "
                       +:+ Fmt.decimal row.2 +:+ Fmt.LF) +:+ text)
        "" rows.

(** What the flat report holds before the cost lines. *)
Definition flat_report_opening (total_word_count : nat)
    (chapter_word_counts : list nat) : string :=
  ("Total Word Count: " +:+ Fmt.decimal total_word_count
                        +:+ Fmt.LF +:+ Fmt.LF)
  +:+ chapter_lines_text (Py.enumerate chapter_word_counts)
  +:+ (Fmt.LF +:+ "Cost Calculations for each model:" +:+ Fmt.LF).

(** * Properties *)

(** ** Sums and word counts *)

Section SumFacts.

Lemma foldl_add_shift (xs : list nat) (n : nat) :
  foldl Nat.add n xs = n + sum_list xs.
Proof.
  revert n. induction xs as [|x xs IH]; intros n; simpl.
  - lia.
  - rewrite IH. unfold id. lia.
Qed.

Lemma sum_is_sum_list (xs : list nat) : Py.sum xs = sum_list xs.
Proof. unfold Py.sum. by rewrite foldl_add_shift. Qed.

Lemma sum_list_lengths_concat {A} (ls : list (list A)) :
  sum_list (length <$> ls) = length (concat ls).
Proof.
  induction ls as [|l ls IH]; simpl; [done|].
  rewrite length_app, <- IH. done.
Qed.

End SumFacts.

(** C2. For every sequence of tokenized chapters, the empty one included,
    the pair that [word_counts] returns (and the pair that [get_word_counts]
    of the flat script returns) has as its first component the sum of its
    second component, the second component has one entry for each chapter,
    and its entry at index [i] is the length of tokenized chapter [i]. *)
Theorem word_counts_total_and_per_chapter (tcs : list (list string)) :
  (∀ path chs,
     let self := BookAnalyzer.Build_t path chs tcs in
     let counts := BookAnalyzer.word_counts self in
     counts.1 = sum_list counts.2
     ∧ length counts.2 = length tcs
     ∧ ∀ i, counts.2 !! i = length <$> tcs !! i)
  ∧ (∀ chs,
     let self := EpubWordAnalyzer.Build_t chs tcs in
     let counts := EpubWordAnalyzer.get_word_counts self in
     counts.1 = sum_list counts.2
     ∧ length counts.2 = length tcs
     ∧ ∀ i, counts.2 !! i = length <$> tcs !! i).
Proof.
  split; intros; simpl; rewrite sum_is_sum_list, length_fmap;
    (split; [done|split; [done|]]); intros i; apply list_lookup_fmap.
Qed.

(** ** Dictionaries in insertion order *)

Section DictFacts.
Context {V : Type}.
Implicit Types (d : Py.dict V) (k : string) (v : V).

Lemma dict_get_None d k : Py.dict_get d k = None ↔ k ∉ Py.dict_keys d.
Proof.
  induction d as [|[k' v'] d IH]; simpl.
  - split; [intros _; apply not_elem_of_nil|done].
  - rewrite not_elem_of_cons. case_decide as Hk.
    + split; [done|]. intros [Hne _]. by subst.
    + rewrite IH. split; [intros Hin; split; [congruence|done]|by intros [_ ?]].
Qed.

Lemma dict_get_Some_elem d k v : Py.dict_get d k = Some v → (k, v) ∈ d.
Proof.
  induction d as [|[k' v'] d IH]; simpl; [done|].
  case_decide; intros; simplify_eq; [left|right; auto].
Qed.

Lemma dict_get_elem d k v :
  NoDup (Py.dict_keys d) → (k, v) ∈ d → Py.dict_get d k = Some v.
Proof.
  induction d as [|[k' v'] d IH]; simpl.
  - intros _ Hin. by apply elem_of_nil in Hin.
  - rewrite NoDup_cons. intros [Hk Hd] Hin.
    apply elem_of_cons in Hin as [Heq|Hin]; [simplify_eq; by rewrite decide_True|].
    case_decide as Hkk; [|by apply IH]. subst k'.
    exfalso. apply Hk. unfold Py.dict_keys.
    apply (list_elem_of_fmap_2 fst) in Hin. done.
Qed.

Lemma dict_set_fresh d k v :
  k ∉ Py.dict_keys d → Py.dict_set d k v = d ++ [(k, v)].
Proof.
  induction d as [|[k' v'] d IH]; simpl; [done|].
  rewrite not_elem_of_cons. intros [Hne Hk].
  rewrite decide_False by done. by rewrite IH.
Qed.

Lemma dict_set_keys_present d k v :
  k ∈ Py.dict_keys d → Py.dict_keys (Py.dict_set d k v) = Py.dict_keys d.
Proof.
  induction d as [|[k' v'] d IH]; simpl.
  - intros Hin. by apply elem_of_nil in Hin.
  - intros Hin. case_decide; simpl; [done|].
    apply elem_of_cons in Hin as [->|Hin]; [done|]. by rewrite IH.
Qed.

Lemma dict_get_set d k v k' :
  Py.dict_get (Py.dict_set d k v) k'
  = if decide (k = k') then Some v else Py.dict_get d k'.
Proof.
  induction d as [|[k0 v0] d IH]; simpl.
  - repeat case_decide; congruence.
  - destruct (decide (k0 = k)) as [->|Hne]; simpl.
    + repeat case_decide; congruence.
    + rewrite IH. repeat case_decide; congruence.
Qed.

Lemma dict_of_pairs_from d (pairs : list (string * V)) :
  NoDup (Py.dict_keys d ++ pairs.*1) →
  foldl (λ d kv, Py.dict_set d kv.1 kv.2) d pairs = d ++ pairs.
Proof.
  revert d. induction pairs as [|[k v] pairs IH]; intros d Hnd; simpl.
  - by rewrite app_nil_r.
  - simpl in Hnd. rewrite dict_set_fresh.
    + rewrite IH; [by rewrite <- app_assoc|].
      unfold Py.dict_keys. rewrite fmap_app. simpl.
      by rewrite <- app_assoc.
    + apply NoDup_app in Hnd as (_ & Hdis & _). intros Hin.
      apply (Hdis k Hin). left.
Qed.

(** [dict(pairs)] is [pairs] itself when no key comes twice. *)
Lemma dict_of_pairs_NoDup (pairs : list (string * V)) :
  NoDup pairs.*1 → Py.dict_of_pairs pairs = pairs.
Proof. intros Hnd. unfold Py.dict_of_pairs. by rewrite dict_of_pairs_from. Qed.

End DictFacts.

(** ** Counting with [Counter] *)

Section CounterFacts.
Implicit Types (d : Py.dict nat) (w x : string) (xs : list string).

Lemma Counter_snoc xs x : Py.Counter (xs ++ [x]) = count_one (Py.Counter xs) x.
Proof. unfold Py.Counter. by rewrite foldl_app. Qed.

Lemma first_index_lt w xs : w ∈ xs → first_index w xs < length xs.
Proof.
  induction xs as [|x xs IH]; simpl.
  - intros Hin. by apply elem_of_nil in Hin.
  - intros Hin. case_decide; [lia|].
    apply elem_of_cons in Hin as [->|Hin]; [done|]. specialize (IH Hin). lia.
Qed.

Lemma first_index_absent w xs : w ∉ xs → first_index w xs = length xs.
Proof.
  induction xs as [|x xs IH]; simpl; [done|].
  rewrite not_elem_of_cons. intros [Hne Hin].
  rewrite decide_False by done. by rewrite IH.
Qed.

Lemma first_index_app_l w xs ys :
  w ∈ xs → first_index w (xs ++ ys) = first_index w xs.
Proof.
  induction xs as [|x xs IH]; simpl.
  - intros Hin. by apply elem_of_nil in Hin.
  - intros Hin. case_decide; [done|].
    apply elem_of_cons in Hin as [->|Hin]; [done|]. by rewrite IH.
Qed.

Lemma first_index_snoc_new x xs :
  x ∉ xs → first_index x (xs ++ [x]) = length xs.
Proof.
  induction xs as [|y xs IH]; simpl.
  - intros _. by rewrite decide_True.
  - rewrite not_elem_of_cons. intros [Hne Hin].
    rewrite decide_False by done. by rewrite IH.
Qed.

Lemma occurrences_snoc w xs x :
  occurrences w (xs ++ [x])
  = occurrences w xs + (if decide (x = w) then 1 else 0).
Proof.
  unfold occurrences. rewrite filter_app, length_app. f_equal.
  rewrite filter_cons, filter_nil. by case_decide.
Qed.

Lemma occurrences_pos w xs : 0 < occurrences w xs ↔ w ∈ xs.
Proof.
  unfold occurrences. induction xs as [|x xs IH].
  - rewrite filter_nil. simpl. split; [lia|]. intros Hin.
    by apply elem_of_nil in Hin.
  - rewrite filter_cons, elem_of_cons. case_decide; simpl.
    + split; [intros _; left; done|lia].
    + rewrite IH. split; [by right|]. intros [->|Hin]; done.
Qed.

Lemma occurrences_absent w xs : w ∉ xs → occurrences w xs = 0.
Proof.
  intros Hin. destruct (occurrences w xs) eqn:E; [done|].
  exfalso. apply Hin, occurrences_pos. lia.
Qed.

Lemma count_one_values_sum d x :
  sum_list (Py.dict_values (count_one d x)) = sum_list (Py.dict_values d) + 1.
Proof.
  unfold count_one.
  induction d as [|[k n] d IH]; simpl; [done|].
  case_decide; simpl; unfold id in *; [lia|]. rewrite IH. lia.
Qed.

(** The counts of a [Counter] add up to the number of elements counted. *)
Lemma Counter_values_sum xs :
  sum_list (Py.dict_values (Py.Counter xs)) = length xs.
Proof.
  induction xs as [|x xs IH] using rev_ind; [done|].
  rewrite Counter_snoc, count_one_values_sum, IH, length_app. simpl. lia.
Qed.

(** What a [Counter] holds for a word is the number of its occurrences. *)
Lemma Counter_get xs w :
  Py.dict_get (Py.Counter xs) w
  = if decide (w ∈ xs) then Some (occurrences w xs) else None.
Proof.
  induction xs as [|x xs IH] using rev_ind.
  - done.
  - rewrite Counter_snoc. unfold count_one. rewrite dict_get_set.
    rewrite occurrences_snoc.
    destruct (decide (x = w)) as [->|Hne].
    + rewrite IH, (decide_True (P := w ∈ xs ++ [w]))
        by (apply elem_of_app; right; apply list_elem_of_singleton; done).
      destruct (decide (w ∈ xs)) as [Hin|Hin]; simpl; [done|].
      by rewrite occurrences_absent.
    + rewrite IH, Nat.add_0_r.
      destruct (decide (w ∈ xs)) as [Hin|Hin].
      * rewrite decide_True by (apply elem_of_app; by left). done.
      * rewrite decide_False; [done|]. rewrite elem_of_app, list_elem_of_singleton.
        intros [Hxs|Heq]; [done|congruence].
Qed.

Lemma Counter_keys_elem xs w : w ∈ Py.dict_keys (Py.Counter xs) ↔ w ∈ xs.
Proof.
  destruct (decide (w ∈ Py.dict_keys (Py.Counter xs))) as [Hk|Hk];
    pose proof (Counter_get xs w) as Hget.
  - split; [intros _|done]. case_decide; [done|].
    by apply dict_get_None in Hget.
  - split; [done|]. intros Hin. rewrite decide_True in Hget by done.
    apply dict_get_None in Hk. congruence.
Qed.

Lemma Counter_keys_snoc xs x :
  Py.dict_keys (Py.Counter (xs ++ [x]))
  = if decide (x ∈ xs) then Py.dict_keys (Py.Counter xs)
    else Py.dict_keys (Py.Counter xs) ++ [x].
Proof.
  rewrite Counter_snoc. unfold count_one. case_decide as Hin.
  - apply dict_set_keys_present. by apply Counter_keys_elem.
  - rewrite dict_set_fresh by (by rewrite Counter_keys_elem).
    unfold Py.dict_keys. by rewrite fmap_app.
Qed.

Lemma Counter_keys_NoDup xs : NoDup (Py.dict_keys (Py.Counter xs)).
Proof.
  induction xs as [|x xs IH] using rev_ind; [constructor|].
  rewrite Counter_keys_snoc. case_decide as Hin; [done|].
  apply NoDup_app. split; [done|]. split; [|apply NoDup_singleton].
  intros w Hw Hx. apply list_elem_of_singleton in Hx as ->.
  apply Hin. by apply Counter_keys_elem.
Qed.

Lemma StronglySorted_change {A} (R R' : A → A → Prop) (l : list A) :
  (∀ a b, a ∈ l → b ∈ l → R a b → R' a b) →
  StronglySorted R l → StronglySorted R' l.
Proof.
  intros Himp Hs. induction Hs as [|a l Hs IH Hall]; constructor.
  - apply IH. intros ? ? ? ?. apply Himp; by right.
  - rewrite Forall_forall in *. intros b Hb.
    apply Himp; [left|by right|by apply Hall].
Qed.

(** The keys of a [Counter] stand in the order of first occurrence. *)
Lemma Counter_keys_ordered xs :
  StronglySorted (λ a b, first_index a xs < first_index b xs)
                 (Py.dict_keys (Py.Counter xs)).
Proof.
  induction xs as [|x xs IH] using rev_ind; [constructor|].
  rewrite Counter_keys_snoc. case_decide as Hin.
  - eapply StronglySorted_change; [|exact IH]. simpl.
    intros a b Ha Hb. rewrite Counter_keys_elem in Ha, Hb.
    by rewrite !first_index_app_l.
  - apply StronglySorted_app. split; [|split].
    + intros a b Ha Hb. apply list_elem_of_singleton in Hb as ->.
      rewrite Counter_keys_elem in Ha.
      rewrite first_index_app_l, first_index_snoc_new by done.
      by apply first_index_lt.
    + eapply StronglySorted_change; [|exact IH]. simpl.
      intros a b Ha Hb. rewrite Counter_keys_elem in Ha, Hb.
      by rewrite !first_index_app_l.
    + repeat constructor.
Qed.

End CounterFacts.

(** ** The stable sort by descending count *)

Section SortFacts.
Implicit Types (x y : string * nat) (l : list (string * nat)).

Lemma insert_desc_perm x l : Py.insert_desc x l ≡ₚ x :: l.
Proof.
  induction l as [|y l IH]; simpl; [done|].
  case_decide; [|done]. rewrite IH. apply Permutation_swap.
Qed.

Lemma sorted_by_count_desc_perm l : Py.sorted_by_count_desc l ≡ₚ l.
Proof.
  induction l as [|x l IH]; simpl; [done|].
  rewrite insert_desc_perm. by rewrite IH.
Qed.

Variable before : relation (string * nat).

Lemma insert_desc_sorted x l :
  Forall (before x) l →
  StronglySorted (by_count_then before) l →
  StronglySorted (by_count_then before) (Py.insert_desc x l).
Proof.
  induction l as [|y l IH]; simpl; intros Hx Hs.
  - repeat constructor.
  - apply Forall_cons in Hx as [Hxy Hx].
    apply StronglySorted_inv in Hs as [Hs Hy].
    case_decide as Hlt.
    + constructor; [by apply IH|].
      rewrite insert_desc_perm. constructor; [by left|done].
    + constructor; [by constructor|].
      constructor.
      * destruct (decide (y.2 = x.2)) as [Heq|Hne]; [right; done|left; lia].
      * rewrite Forall_forall in *. intros z Hz.
        destruct (Hy z Hz) as [Hzy|[Hzy _]].
        -- left. lia.
        -- destruct (decide (y.2 = x.2)) as [Heq|Hne].
           ++ right. split; [congruence|by apply Hx].
           ++ left. lia.
Qed.

(** Sorting a list that stands in the order [before] gives a list in
    descending order of count in which equal counts keep the order
    [before]: the sort is stable. *)
Lemma sorted_by_count_desc_stable l :
  StronglySorted before l →
  StronglySorted (by_count_then before) (Py.sorted_by_count_desc l).
Proof.
  induction 1 as [|x l Hs IH Hx]; simpl; [constructor|].
  apply insert_desc_sorted; [|done].
  by rewrite sorted_by_count_desc_perm.
Qed.

End SortFacts.

(** ** Word frequencies *)

Section FrequencyFacts.
Implicit Types (tcs : list (list string)) (stream : list string).

Lemma StronglySorted_of_fmap {A B} (f : A → B) (R : relation B) (l : list A) :
  StronglySorted R (f <$> l) → StronglySorted (λ a b, R (f a) (f b)) l.
Proof.
  induction l as [|a l IH]; simpl; intros Hs; [constructor|].
  apply StronglySorted_inv in Hs as [Hs Ha].
  constructor; [by apply IH|]. by rewrite Forall_fmap in Ha.
Qed.

Lemma most_common_keys_NoDup stream :
  NoDup (Py.most_common (Py.Counter stream)).*1.
Proof.
  unfold Py.most_common. rewrite sorted_by_count_desc_perm.
  apply Counter_keys_NoDup.
Qed.

(** The table is the counter of the flattened chapters, sorted: building
    a [dict] from the sorted items changes nothing. *)
Lemma word_frequencies_unfold path chs tcs :
  BookAnalyzer.word_frequencies (BookAnalyzer.Build_t path chs tcs)
  = Py.most_common (Py.Counter (concat tcs)).
Proof.
  unfold BookAnalyzer.word_frequencies, BookAnalyzer.all_tokens. simpl.
  apply dict_of_pairs_NoDup, most_common_keys_NoDup.
Qed.

Lemma get_word_frequency_unfold chs tcs :
  EpubWordAnalyzer.get_word_frequency (EpubWordAnalyzer.Build_t chs tcs)
  = Py.most_common (Py.Counter (concat tcs)).
Proof.
  unfold EpubWordAnalyzer.get_word_frequency. simpl.
  apply dict_of_pairs_NoDup, most_common_keys_NoDup.
Qed.

Lemma most_common_values_sum stream :
  sum_list (Py.dict_values (Py.most_common (Py.Counter stream)))
  = length stream.
Proof.
  unfold Py.most_common, Py.dict_values.
  rewrite sorted_by_count_desc_perm. apply Counter_values_sum.
Qed.

Lemma most_common_entries stream w c :
  (w, c) ∈ Py.most_common (Py.Counter stream)
  ↔ w ∈ stream ∧ c = occurrences w stream.
Proof.
  unfold Py.most_common. rewrite sorted_by_count_desc_perm.
  pose proof (Counter_get stream w) as Hget. split.
  - intros Hin. apply dict_get_elem in Hin; [|apply Counter_keys_NoDup].
    rewrite Hin in Hget. case_decide; [|done]. by simplify_eq.
  - intros [Hin ->]. rewrite decide_True in Hget by done.
    by apply dict_get_Some_elem.
Qed.

Lemma most_common_ranked stream :
  StronglySorted (ranked_before stream) (Py.most_common (Py.Counter stream)).
Proof.
  apply sorted_by_count_desc_stable.
  apply (StronglySorted_of_fmap fst
           (λ a b, first_index a stream < first_index b stream)).
  apply Counter_keys_ordered.
Qed.

(** Any stable sort gives the same table: a list with the entries of the
    counter that stands in the order [ranked_before] is the one that
    [most_common] returns. *)
Lemma most_common_unique stream (table : list (string * nat)) :
  table ≡ₚ Py.Counter stream →
  StronglySorted (ranked_before stream) table →
  table = Py.most_common (Py.Counter stream).
Proof.
  intros Hperm Hsorted.
  apply (StronglySorted_unique_strong (ranked_before stream)).
  - intros [w1 c1] [w2 c2] _ _ [Hlt|[Heq Hlt]] [Hlt'|[Heq' Hlt']];
      simpl in *; lia.
  - done.
  - apply most_common_ranked.
  - rewrite Hperm. unfold Py.most_common.
    by rewrite sorted_by_count_desc_perm.
Qed.

(** The scenario of two chapters, run on the stub collaborators. *)
Example two_chapter_book_counts :
  let self := @BookAnalyzer.make Stub.total "book.epub" Stub.book in
  BookAnalyzer.word_counts self = (8, [3; 5])
  ∧ BookAnalyzer.word_frequencies self
    = [("the", 3); ("cat", 2); ("sat", 1); ("dog", 1); ("ran", 1)].
Proof. split; reflexivity. Qed.

End FrequencyFacts.

(** C3. For every sequence of tokenized chapters, the occurrence counts in
    the table of [word_frequencies] (and of [get_word_frequency] of the flat
    script) add up to the total word count that [word_counts]
    ([get_word_counts]) returns on the same chapters. *)
Theorem word_frequencies_sum_is_total_word_count (tcs : list (list string)) :
  (∀ path chs,
     let self := BookAnalyzer.Build_t path chs tcs in
     sum_list (Py.dict_values (BookAnalyzer.word_frequencies self))
     = (BookAnalyzer.word_counts self).1)
  ∧ (∀ chs,
     let self := EpubWordAnalyzer.Build_t chs tcs in
     sum_list (Py.dict_values (EpubWordAnalyzer.get_word_frequency self))
     = (EpubWordAnalyzer.get_word_counts self).1).
Proof.
  split; intros; subst self.
  - rewrite word_frequencies_unfold, most_common_values_sum. simpl.
    by rewrite sum_is_sum_list, sum_list_lengths_concat.
  - rewrite get_word_frequency_unfold, most_common_values_sum. simpl.
    by rewrite sum_is_sum_list, sum_list_lengths_concat.
Qed.

(** C4. For every sequence of tokenized chapters, the table of
    [word_frequencies] (and of [get_word_frequency] of the flat script)
    lists each distinct token of the flattened stream once, with the number
    of its occurrences, and is ordered by descending count; of two tokens
    with equal counts, the one that occurs first in the flattened stream
    comes first. *)
Theorem word_frequencies_ranked (tcs : list (list string)) :
  let stream := concat tcs in
  let well_ordered (table : Py.dict nat) :=
    NoDup (Py.dict_keys table)
    ∧ (∀ w c, (w, c) ∈ table ↔ w ∈ stream ∧ c = occurrences w stream)
    ∧ StronglySorted (ranked_before stream) table in
  (∀ path chs,
     well_ordered
       (BookAnalyzer.word_frequencies (BookAnalyzer.Build_t path chs tcs)))
  ∧ (∀ chs,
     well_ordered
       (EpubWordAnalyzer.get_word_frequency (EpubWordAnalyzer.Build_t chs tcs))).
Proof.
  intros stream well_ordered.
  assert (well_ordered (Py.most_common (Py.Counter stream))) as Hwo.
  { split; [apply most_common_keys_NoDup|].
    split; [apply most_common_entries|apply most_common_ranked]. }
  split; intros.
  - by rewrite word_frequencies_unfold.
  - by rewrite get_word_frequency_unfold.
Qed.

(** ** Cost *)

Section CostFacts.

Lemma cost_of_tokens_mono (price : Q) (n m : nat) :
  (0 <= price)%Q → (n ≤ m)%nat →
  (CostCalculator.cost_of_tokens price n
   <= CostCalculator.cost_of_tokens price m)%Q.
Proof.
  intros Hprice Hnm. unfold CostCalculator.cost_of_tokens.
  apply Qmult_le_compat_r; [|done].
  unfold Qdiv. apply Qmult_le_compat_r; [|done].
  rewrite <- Zle_Qle. lia.
Qed.

Lemma cost_of_tokens_double (price : Q) (n : nat) :
  (CostCalculator.cost_of_tokens price (2 * n)
   == 2 * CostCalculator.cost_of_tokens price n)%Q.
Proof.
  unfold CostCalculator.cost_of_tokens.
  rewrite Nat2Z.inj_mul, inject_Z_mult. simpl (inject_Z (Z.of_nat 2)).
  field.
Qed.

Lemma cost_of_no_tokens (price : Q) :
  (CostCalculator.cost_of_tokens price 0 == 0)%Q.
Proof. unfold CostCalculator.cost_of_tokens. simpl. field. Qed.

(** 1000 encoded tokens at 0.01 and at 0.02 per 1000 tokens. *)
Example thousand_tokens_cost :
  (CostCalculator.cost_of_tokens (1 # 100) 1000 == 1 # 100)%Q
  ∧ (CostCalculator.cost_of_tokens (2 # 100) 1000 == 2 # 100)%Q.
Proof. split; reflexivity. Qed.

Context `{Collaborators}.

Lemma calculate_cost_encoded (model : LLMClient) (text : string) tokens :
  encode_tokens model text = Some tokens →
  CostCalculator.calculate_cost model text
  = Ok (CostCalculator.cost_of_tokens (price_per_1000 model) (length tokens)).
Proof.
  intros Henc. unfold CostCalculator.calculate_cost,
    CostCalculator.encoding_encode. by rewrite Henc.
Qed.

Lemma calculate_cost_raises (model : LLMClient) (text : string) :
  encode_tokens model text = None →
  CostCalculator.calculate_cost model text = Raise EncodingError.
Proof.
  intros Henc. unfold CostCalculator.calculate_cost,
    CostCalculator.encoding_encode. by rewrite Henc.
Qed.

End CostFacts.

(** C6. For a fixed pricing model, whose price is not negative, the cost
    that [calculate_cost] computes does not decrease when the encoded token
    count grows, and a text with twice as many encoded tokens costs exactly
    twice as much (for any price). *)
Theorem calculate_cost_monotone_and_linear `{Collaborators}
    (model : LLMClient) (text1 text2 : string) (tokens1 tokens2 : list nat) :
  encode_tokens model text1 = Some tokens1 →
  encode_tokens model text2 = Some tokens2 →
  ∃ cost1 cost2 : Q,
    CostCalculator.calculate_cost model text1 = Ok cost1
    ∧ CostCalculator.calculate_cost model text2 = Ok cost2
    ∧ ((0 <= price_per_1000 model)%Q →
       (length tokens1 ≤ length tokens2)%nat → (cost1 <= cost2)%Q)
    ∧ (length tokens2 = 2 * length tokens1 → (cost2 == 2 * cost1)%Q).
Proof.
  intros H1 H2. eexists _, _.
  split; [by apply calculate_cost_encoded|].
  split; [by apply calculate_cost_encoded|].
  split.
  - apply cost_of_tokens_mono.
  - intros ->. apply cost_of_tokens_double.
Qed.

Lemma calculate_cost_monotone_and_linear_witness :
  ∃ cost1 cost2 : Q,
    @CostCalculator.calculate_cost Stub.total Stub.mini "cat" = Ok cost1
    ∧ @CostCalculator.calculate_cost Stub.total Stub.mini "catdog"
      = Ok cost2
    ∧ (cost1 <= cost2)%Q ∧ (cost2 == 2 * cost1)%Q.
Proof.
  destruct (@calculate_cost_monotone_and_linear Stub.total Stub.mini
              "cat" "catdog" _ _ eq_refl eq_refl)
    as (cost1 & cost2 & E1 & E2 & Hmono & Hlin).
  exists cost1, cost2. split; [exact E1|]. split; [exact E2|]. split.
  - apply Hmono; [discriminate|]. vm_compute. lia.
  - apply Hlin. reflexivity.
Defined.

(** C1, as stated, fails. On the one chapter ["a  b"] (two spaces), with
    words split at spaces and one token for each character, the raw text has
    4 tokens, but [calculate_cost] encodes the text ["a b"] rebuilt from the
    word tokens, which has 3, and the flat script encodes ["a     b"], the
    characters of the chapter joined by spaces, which has 7. *)
Lemma calculate_cost_not_of_raw_text :
  let self := @BookAnalyzer.make Stub.total "book.epub" ["a  b"] in
  let flat := @EpubWordAnalyzer.make Stub.total ["a  b"] in
  let raw_text := Py.join " " (BookAnalyzer.chapters self) in
  raw_text = "a  b"
  ∧ @CostCalculator.calculate_cost Stub.total Stub.mini raw_text
    = Ok (4 # 100000)%Q
  ∧ @BookAnalyzer.calculate_cost Stub.total self Stub.mini
    = Ok (3 # 100000)%Q
  ∧ @EpubWordAnalyzer.calculate_book_cost Stub.total flat "gpt-4o-mini"
    = Ok (7 # 100000)%Q
  ∧ ¬ (3 # 100000 == 4 # 100000)%Q
  ∧ ¬ (7 # 100000 == 4 # 100000)%Q.
Proof. repeat split; try reflexivity; intros E; discriminate E. Qed.

(** C1, amended. For every book and every pricing model, [calculate_cost]
    is the cost calculator's cost of [full_text]: the word tokens of each
    chapter joined by single spaces, and these texts joined by single
    spaces in chapter order. When the encoder takes that text the cost is
    (number of its tokens / 1000) * price per 1000, and when the encoder
    raises, so does [calculate_cost]. *)
Theorem calculate_cost_of_tokenized_text `{Collaborators}
    (path : string) (chs : list string) (model : LLMClient) :
  let self := BookAnalyzer.make path chs in
  let full_text := Py.join " " ((λ ch, Py.join " " (word_tokenize ch)) <$> chs) in
  BookAnalyzer.calculate_cost self model
  = match encode_tokens model full_text with
    | Some tokens =>
        Ok ((inject_Z (Z.of_nat (length tokens)) / 1000)
            * price_per_1000 model)%Q
    | None => Raise EncodingError
    end.
Proof.
  intros self full_text.
  unfold BookAnalyzer.calculate_cost, BookAnalyzer.full_text. simpl.
  rewrite <- list_fmap_compose. fold full_text.
  destruct (encode_tokens model full_text) as [tokens|] eqn:Henc.
  - by rewrite (calculate_cost_encoded _ _ tokens).
  - by rewrite calculate_cost_raises.
Qed.

(** ** Token counts *)

Section ResultFacts.
Context {A B : Type}.

Lemma mapM_result_Ok (f : A → result B) (l : list A) (ys : list B) :
  mapM f l = Ok ys ↔ Forall2 (λ x y, f x = Ok y) l ys.
Proof.
  revert ys. induction l as [|x l IH]; intros ys; simpl.
  - split; [intros [= <-]; constructor|by inversion 1].
  - unfold mbind, result_bind, mret, result_ret.
    destruct (f x) as [y|e] eqn:Hx.
    + fold (mapM f l). destruct (mapM f l) as [ys'|e] eqn:Hl.
      * split.
        -- intros [= <-]. constructor; [done|by apply IH].
        -- inversion 1 as [|? y' ? ys'' Hy Hys]; subst.
           apply IH in Hys. simplify_eq. congruence.
      * split; [done|]. inversion 1 as [|? y' ? ys'' Hy Hys]; subst.
        apply IH in Hys. done.
    + split; [done|]. inversion 1 as [|? y' ? ys'' Hy Hys]. congruence.
Qed.

Lemma mapM_result_total (f : A → result B) (g : A → B) (l : list A) :
  Forall (λ x, f x = Ok (g x)) l → mapM f l = Ok (g <$> l).
Proof.
  intros Hall. apply mapM_result_Ok.
  induction Hall; simpl; by constructor.
Qed.

End ResultFacts.

Section TokenCountFacts.
Context `{Collaborators}.
Implicit Types (self : BookAnalyzer.t) (model : LLMClient).

Lemma count_tokens_Ok model chapter n :
  count_tokens model chapter = Ok n
  ↔ ∃ tokens, encode_tokens model chapter = Some tokens ∧ n = length tokens.
Proof.
  unfold count_tokens, CostCalculator.encoding_encode.
  destruct (encode_tokens model chapter) as [tokens|]; simpl.
  - split; [intros [= <-]; eauto|]. intros (? & [= <-] & ->). done.
  - split; [done|]. by intros (? & ? & _).
Qed.

(** Encoding the chapters a second time gives the same counts: the encoder
    is a function of the model and the text. *)
Lemma token_counts_of_once self model :
  BookAnalyzer.token_counts_of self model
  = (counts ← mapM (count_tokens model) (BookAnalyzer.chapters self);
     Ok (Py.sum counts, counts)).
Proof.
  unfold BookAnalyzer.token_counts_of. fold (count_tokens model).
  destruct (mapM (count_tokens model) (BookAnalyzer.chapters self))
    as [counts|e]; done.
Qed.

Lemma token_counts_of_Ok self model total per :
  BookAnalyzer.token_counts_of self model = Ok (total, per) →
  total = sum_list per
  ∧ Forall2 (λ chapter n, ∃ tokens,
               encode_tokens model chapter = Some tokens ∧ n = length tokens)
            (BookAnalyzer.chapters self) per.
Proof.
  rewrite token_counts_of_once.
  destruct (mapM (count_tokens model) (BookAnalyzer.chapters self))
    as [counts|e] eqn:Hm; simpl; [|done].
  intros [= <- <-]. split; [apply sum_is_sum_list|].
  apply mapM_result_Ok in Hm.
  eapply Forall2_impl; [exact Hm|]. intros ch n. apply count_tokens_Ok.
Qed.

Lemma token_counts_of_total self model :
  Forall (λ chapter, is_Some (encode_tokens model chapter))
         (BookAnalyzer.chapters self) →
  let per := encoded_length model <$> BookAnalyzer.chapters self in
  BookAnalyzer.token_counts_of self model = Ok (sum_list per, per).
Proof.
  intros Hall per. rewrite token_counts_of_once.
  rewrite (mapM_result_total _ (encoded_length model)).
  - simpl. by rewrite sum_is_sum_list.
  - eapply Forall_impl; [exact Hall|]. intros ch [tokens Henc].
    apply count_tokens_Ok. exists tokens. split; [done|].
    unfold encoded_length. by rewrite Henc.
Qed.

Lemma token_counts_inv self tc :
  BookAnalyzer.token_counts self = Ok tc →
  ∃ c1 c2,
    BookAnalyzer.token_counts_of self GPT4oMini = Ok c1
    ∧ BookAnalyzer.token_counts_of self GPT4O = Ok c2
    ∧ tc = Py.dict_set [(model_name GPT4oMini, c1)] (model_name GPT4O) c2.
Proof.
  unfold BookAnalyzer.token_counts, BookAnalyzer.models. simpl.
  destruct (BookAnalyzer.token_counts_of self GPT4oMini) as [c1|]; [|done].
  destruct (BookAnalyzer.token_counts_of self GPT4O) as [c2|]; [|done].
  simpl. intros [= <-]. by exists c1, c2.
Qed.

(** Every entry of the result is what one turn of the loop computed for a
    configured model of that name. *)
Lemma token_counts_get self tc model :
  BookAnalyzer.token_counts self = Ok tc →
  model ∈ BookAnalyzer.models →
  ∃ model' counts,
    model' ∈ BookAnalyzer.models
    ∧ model_name model' = model_name model
    ∧ Py.dict_get tc (model_name model) = Some counts
    ∧ BookAnalyzer.token_counts_of self model' = Ok counts
    ∧ (model_name GPT4oMini ≠ model_name GPT4O → model' = model).
Proof.
  intros (c1 & c2 & H1 & H2 & ->)%token_counts_inv Hin.
  unfold BookAnalyzer.models in *.
  apply elem_of_cons in Hin as [->|Hin];
    [|apply list_elem_of_singleton in Hin as ->].
  - destruct (decide (model_name GPT4oMini = model_name GPT4O)) as [Heq|Hne].
    + exists GPT4O, c2. split; [set_solver|]. split; [done|].
      rewrite dict_get_set, decide_True by done. done.
    + exists GPT4oMini, c1. split; [set_solver|]. split; [done|].
      rewrite dict_get_set, decide_False by done. simpl.
      rewrite decide_True by done. done.
  - exists GPT4O, c2. split; [set_solver|]. split; [done|].
    rewrite dict_get_set, decide_True by done. done.
Qed.

End TokenCountFacts.

(** C7. For every book, whatever its word-tokenized form, if the two
    configured models have different names and their encoders take every
    chapter, then [token_counts] returns a table that holds, under the name
    of each configured model, the total encoded-token count together with the
    list, in chapter order, of the number of tokens that model's encoder
    gives for the raw text of each chapter. *)
Theorem token_counts_of_raw_chapters `{Collaborators}
    (path : string) (chs : list string) (tcs : list (list string)) :
  let self := BookAnalyzer.Build_t path chs tcs in
  model_name GPT4oMini ≠ model_name GPT4O →
  (∀ model, model ∈ BookAnalyzer.models →
            Forall (λ chapter, is_Some (encode_tokens model chapter)) chs) →
  ∃ tc,
    BookAnalyzer.token_counts self = Ok tc
    ∧ ∀ model, model ∈ BookAnalyzer.models →
        let per := encoded_length model <$> chs in
        Py.dict_get tc (model_name model) = Some (sum_list per, per).
Proof.
  intros self Hnames Henc.
  pose proof (token_counts_of_total self GPT4oMini) as H1.
  pose proof (token_counts_of_total self GPT4O) as H2.
  simpl in H1, H2.
  specialize (H1 (Henc GPT4oMini ltac:(unfold BookAnalyzer.models; set_solver))).
  specialize (H2 (Henc GPT4O ltac:(unfold BookAnalyzer.models; set_solver))).
  eexists. split.
  - unfold BookAnalyzer.token_counts, BookAnalyzer.models. simpl.
    rewrite H1. simpl. rewrite H2. simpl. reflexivity.
  - intros model Hin per. unfold BookAnalyzer.models in Hin.
    rewrite decide_False by done.
    apply elem_of_cons in Hin as [->|Hin];
      [|apply list_elem_of_singleton in Hin as ->]; simpl.
    + rewrite decide_True by done. done.
    + rewrite decide_False by done. rewrite decide_True by done. done.
Qed.

Lemma token_counts_of_raw_chapters_witness :
  ∃ tc,
    @BookAnalyzer.token_counts Stub.total
      (BookAnalyzer.Build_t "book.epub" Stub.book []) = Ok tc
    ∧ Py.dict_get tc "gpt-4o-mini" = Some (30, [11; 19])
    ∧ Py.dict_get tc "gpt-4o" = Some (30, [11; 19]).
Proof.
  destruct (@token_counts_of_raw_chapters Stub.total "book.epub" Stub.book [])
    as (tc & Htc & Hget).
  - discriminate.
  - intros model _. repeat constructor; eexists; reflexivity.
  - exists tc. split; [exact Htc|]. split.
    + apply (Hget Stub.mini). unfold BookAnalyzer.models. simpl. set_solver.
    + apply (Hget Stub.big). unfold BookAnalyzer.models. simpl. set_solver.
Defined.

(** C10. For every analyzer and every configured model, when
    [token_counts] returns, the pair it holds under the name of the model
    has as total the sum of its per-chapter counts, and its per-chapter list
    has one entry for each chapter, in chapter order: the entry at index [i]
    is the number of tokens that the encoder of a configured model of that
    name gives for chapter [i]. *)
Theorem token_counts_total_is_sum `{Collaborators}
    (self : BookAnalyzer.t) (tc : Py.dict (nat * list nat))
    (model : LLMClient) :
  BookAnalyzer.token_counts self = Ok tc →
  model ∈ BookAnalyzer.models →
  ∃ total per,
    Py.dict_get tc (model_name model) = Some (total, per)
    ∧ total = sum_list per
    ∧ length per = length (BookAnalyzer.chapters self)
    ∧ ∃ model',
        model' ∈ BookAnalyzer.models
        ∧ model_name model' = model_name model
        ∧ ∀ i chapter,
            BookAnalyzer.chapters self !! i = Some chapter →
            ∃ tokens, encode_tokens model' chapter = Some tokens
                      ∧ per !! i = Some (length tokens).
Proof.
  intros Htc Hin.
  destruct (token_counts_get self tc model Htc Hin)
    as (model' & [total per] & Hin' & Hname & Hget & Hof & _).
  apply token_counts_of_Ok in Hof as [Htotal Hper].
  exists total, per. split; [done|]. split; [done|].
  split; [symmetry; by eapply Forall2_length|].
  exists model'. split; [done|]. split; [done|].
  intros i chapter Hi.
  destruct (Forall2_lookup_l _ _ _ _ _ Hper Hi) as (n & Hn & tokens & Henc & ->).
  by exists tokens.
Qed.

Lemma token_counts_total_is_sum_witness :
  ∃ total per,
    Py.dict_get [("gpt-4o-mini", (30, [11; 19])); ("gpt-4o", (30, [11; 19]))]
                "gpt-4o" = Some (total, per)
    ∧ total = sum_list per
    ∧ length per = 2.
Proof.
  destruct (@token_counts_total_is_sum Stub.total
              (@BookAnalyzer.make Stub.total "book.epub" Stub.book)
              [("gpt-4o-mini", (30, [11; 19])); ("gpt-4o", (30, [11; 19]))]
              Stub.big eq_refl)
    as (total & per & Hget & Hsum & Hlen & _).
  - unfold BookAnalyzer.models. simpl. set_solver.
  - exists total, per. split; [exact Hget|]. split; [exact Hsum|exact Hlen].
Defined.

(** ** Blocks of writes *)

Section BlockFacts.

Lemma append_nil_r (s : string) : s +:+ "" = s.
Proof.
  induction s as [|c s IH]; [done|].
  change (String c (s +:+ "") = String c s). by f_equal.
Qed.

Lemma append_assoc (s1 s2 s3 : string) :
  s1 +:+ (s2 +:+ s3) = (s1 +:+ s2) +:+ s3.
Proof.
  induction s1 as [|c s1 IH]; [done|].
  change (String c (s1 +:+ (s2 +:+ s3)) = String c ((s1 +:+ s2) +:+ s3)).
  by f_equal.
Qed.

Lemma block_bind_Ok {A B} (m : Block A) (f : A → Block B) a s :
  m = (Ok a, s) → m ≫= f = ((f a).1, s +:+ (f a).2).
Proof. intros ->. unfold mbind, Block_bind. by destruct (f a). Qed.

Lemma block_bind_Raise {A B} (m : Block A) (f : A → Block B) e s :
  m = (Raise e, s) → m ≫= f = (Raise e, s).
Proof. by intros ->. Qed.

Lemma block_write_then {B} (s : string) (k : Block B) :
  (File.write s ;; k) = (k.1, s +:+ k.2).
Proof. exact (block_bind_Ok (File.write s) (λ _, k) () s eq_refl). Qed.

Lemma for_each_Ok {A} (xs : list A) (body : A → Block ()) :
  Forall (λ x, ∃ s, body x = (Ok (), s)) xs →
  ∃ s, for_each xs body = (Ok (), s).
Proof.
  induction 1 as [|x xs [s Hx] _ [s' IH]]; simpl.
  - by exists "".
  - exists (s +:+ s'). rewrite (block_bind_Ok _ _ () s Hx). by rewrite IH.
Qed.

Lemma write_frequency_rows_from (table : list (string * nat)) (k : nat) :
  BookAnalyzer.write_frequency_rows (zip (seq k (length table)) table)
  = (Ok (), frequency_rows_text (take (200 - k) table)).
Proof.
  revert k. induction table as [|[word frequency] table IH]; intros k.
  - by rewrite take_nil.
  - cbn [length seq zip zip_with BookAnalyzer.write_frequency_rows].
    case_decide as Hk.
    + replace (200 - k) with 0 by lia. done.
    + replace (200 - k) with (S (200 - S k)) by lia.
      rewrite block_write_then, IH. done.
Qed.

(** The loop writes the rows of the first 200 entries and no other. *)
Lemma write_frequency_rows_first_200 (table : Py.dict nat) :
  BookAnalyzer.write_frequency_rows (Py.enumerate table)
  = (Ok (), frequency_rows_text (take 200 table)).
Proof.
  unfold Py.enumerate. rewrite write_frequency_rows_from.
  by rewrite Nat.sub_0_r.
Qed.

Lemma write_frequencies_text (table : Py.dict nat) :
  BookAnalyzer.write_frequencies table
  = (Ok (), frequency_heading +:+ frequency_rows_text (take 200 table)
                              +:+ Fmt.LF).
Proof.
  unfold BookAnalyzer.write_frequencies.
  rewrite !block_write_then.
  rewrite (block_bind_Ok _ _ () _ (write_frequency_rows_first_200 table)).
  unfold frequency_heading. cbn [fst snd File.write].
  by rewrite !append_assoc.
Qed.

End BlockFacts.

(** ** Writing the report *)

Section ReportFacts.
Context `{Collaborators}.
Implicit Types (self : BookAnalyzer.t) (w : world).

(** A run counts tokens first, and opens the destination only when that
    has not raised. *)
Lemma write_statistics_unfold self save_path w :
  BookAnalyzer.write_statistics self save_path w
  = match BookAnalyzer.token_counts self with
    | Raise e => (Raise e, w)
    | Ok tc =>
        File.with_open_w (BookAnalyzer.resolve_save_path self save_path)
          (BookAnalyzer.write_report self
             (BookAnalyzer.word_counts self).1
             (BookAnalyzer.word_counts self).2 tc
             (BookAnalyzer.word_frequencies self) (Py.dict_keys tc)) w
    end.
Proof.
  unfold BookAnalyzer.write_statistics, BookAnalyzer.word_counts.
  unfold mbind, IO_bind, lift.
  by destruct (BookAnalyzer.token_counts self).
Qed.

Lemma write_report_split self total counts tc table names :
  BookAnalyzer.write_report self total counts tc table names
  = match BookAnalyzer.write_tables self total counts tc names with
    | (Ok _, tables_text) =>
        (Ok (), tables_text +:+ frequency_heading
                  +:+ frequency_rows_text (take 200 table) +:+ Fmt.LF)
    | (Raise e, tables_text) => (Raise e, tables_text)
    end.
Proof.
  unfold BookAnalyzer.write_report.
  destruct (BookAnalyzer.write_tables self total counts tc names)
    as [[[]|e] tables_text]; [|done].
  rewrite (block_bind_Ok _ _ () tables_text eq_refl).
  by rewrite write_frequencies_text.
Qed.

Lemma write_cost_row_Ok self model tokens :
  encode_tokens model (BookAnalyzer.full_text self) = Some tokens →
  ∃ s, BookAnalyzer.write_cost_row self model = (Ok (), s).
Proof.
  intros Henc. unfold BookAnalyzer.write_cost_row, BookAnalyzer.calculate_cost.
  rewrite (calculate_cost_encoded _ _ tokens Henc). by eexists.
Qed.

Lemma write_cost_row_Raise self model :
  encode_tokens model (BookAnalyzer.full_text self) = None →
  BookAnalyzer.write_cost_row self model = (Raise EncodingError, "").
Proof.
  intros Henc. unfold BookAnalyzer.write_cost_row, BookAnalyzer.calculate_cost.
  by rewrite (calculate_cost_raises _ _ Henc).
Qed.

Lemma mapM_result_exists {A B} (f : A → result B) (l : list A) :
  Forall (λ x, ∃ y, f x = Ok y) l → ∃ ys, mapM f l = Ok ys.
Proof.
  induction 1 as [|x l [y Hy] _ [ys IH]].
  - by exists [].
  - exists (y :: ys). apply mapM_result_Ok. constructor; [done|].
    by apply mapM_result_Ok.
Qed.

Lemma write_chapter_row_Ok (tc : Py.dict (nat * list nat)) (i wc : nat) :
  Forall (λ entry, i < length entry.2.2) tc →
  ∃ s, BookAnalyzer.write_chapter_row tc (Py.dict_keys tc) (i, wc)
       = (Ok (), s).
Proof.
  intros Hlen. unfold BookAnalyzer.write_chapter_row.
  destruct (mapM_result_exists (BookAnalyzer.token_cell tc i) (Py.dict_keys tc))
    as [cells ->]; [|by eexists].
  apply Forall_forall. intros name Hname.
  unfold BookAnalyzer.token_cell.
  destruct (Py.dict_get tc name) as [counts|] eqn:Hget.
  - apply dict_get_Some_elem in Hget.
    rewrite Forall_forall in Hlen. specialize (Hlen _ Hget). simpl in Hlen.
    destruct (lookup_lt_is_Some_2 _ _ Hlen) as [n Hn].
    simpl. rewrite Hn. by eexists.
  - by apply dict_get_None in Hget.
Qed.

Lemma enumerate_index_lt {A} (xs : list A) (i : nat) (x : A) :
  (i, x) ∈ Py.enumerate xs → i < length xs.
Proof.
  unfold Py.enumerate. intros Hin. apply elem_of_zip_l in Hin.
  apply elem_of_seq in Hin. lia.
Qed.

End ReportFacts.

(** C9. In the tabular report of every run of [write_statistics] that
    completes, the word-frequency section is the last thing in the file and
    holds, after its heading, one row for each of the first 200 entries of
    the frequency table, in the order of the table (descending count), and
    nothing for the entries beyond the 200th. *)
Theorem frequency_table_limited_to_200 `{Collaborators}
    (self : BookAnalyzer.t) (save_path : option string) (w w' : world) :
  BookAnalyzer.write_statistics self save_path w = (Ok (), w') →
  let table := BookAnalyzer.word_frequencies self in
  let shown := take 200 table in
  (∃ tables_text,
     files w' !! BookAnalyzer.resolve_save_path self save_path
     = Some (tables_text +:+ frequency_heading
               +:+ frequency_rows_text shown +:+ Fmt.LF))
  ∧ length shown ≤ 200
  ∧ (∀ i, shown !! i = if decide (i < 200) then table !! i else None)
  ∧ StronglySorted (ranked_before (BookAnalyzer.all_tokens self)) shown.
Proof.
  intros Hrun table shown. split; [|split; [|split]].
  - rewrite write_statistics_unfold in Hrun.
    destruct (BookAnalyzer.token_counts self) as [tc|e]; [|done].
    unfold File.with_open_w in Hrun. case_decide; [done|].
    rewrite write_report_split in Hrun.
    destruct (BookAnalyzer.write_tables _ _ _ _ _) as [[[]|e] tables_text];
      [|done].
    simpl in Hrun. injection Hrun as <-. simpl.
    exists tables_text. by rewrite lookup_insert_eq.
  - subst shown. rewrite length_take. lia.
  - intros i. apply lookup_take.
  - subst shown table. destruct self as [path chs tcs].
    rewrite word_frequencies_unfold. unfold BookAnalyzer.all_tokens. simpl.
    pose proof (most_common_ranked (concat tcs)) as Hs.
    rewrite <- (take_drop 200 (Py.most_common _)) in Hs.
    by apply StronglySorted_app_1_l in Hs.
Qed.

Lemma frequency_table_limited_to_200_witness :
  let self := @BookAnalyzer.make Stub.total "book.epub" Stub.book in
  ∃ tables_text,
    files (@BookAnalyzer.write_statistics Stub.total self None
             Stub.empty_world).2 !! "book.epub_stats.md"
    = Some (tables_text +:+ frequency_heading
              +:+ frequency_rows_text
                    [("the", 3); ("cat", 2); ("sat", 1); ("dog", 1); ("ran", 1)]
              +:+ Fmt.LF).
Proof.
  intros self.
  destruct (@frequency_table_limited_to_200 Stub.total self None
              Stub.empty_world
              (@BookAnalyzer.write_statistics Stub.total self None
                 Stub.empty_world).2 eq_refl)
    as [[tables_text Hfile] _].
  exists tables_text. exact Hfile.
Defined.

(** ** A run that completes *)

Section CompletionFacts.
Context `{Collaborators}.
Implicit Types (self : BookAnalyzer.t) (w : world).

Lemma token_counts_lengths self tc :
  BookAnalyzer.token_counts self = Ok tc →
  Forall (λ entry, length entry.2.2 = length (BookAnalyzer.chapters self)) tc.
Proof.
  intros (c1 & c2 & H1 & H2 & ->)%token_counts_inv.
  destruct c1 as [t1 per1], c2 as [t2 per2].
  apply token_counts_of_Ok in H1 as [_ H1], H2 as [_ H2].
  apply Forall2_length in H1, H2. simpl.
  case_decide; repeat constructor; simpl; congruence.
Qed.

Lemma token_counts_succeeds self :
  (∀ model, model ∈ BookAnalyzer.models →
            Forall (λ chapter, is_Some (encode_tokens model chapter))
                   (BookAnalyzer.chapters self)) →
  ∃ tc, BookAnalyzer.token_counts self = Ok tc.
Proof.
  intros Henc. unfold BookAnalyzer.token_counts. simpl.
  rewrite !token_counts_of_total
    by (apply Henc; unfold BookAnalyzer.models; set_solver).
  by eexists.
Qed.

Lemma write_tables_Ok self total counts tc :
  (∀ model, model ∈ BookAnalyzer.models →
            is_Some (encode_tokens model (BookAnalyzer.full_text self))) →
  Forall (λ entry, length counts ≤ length entry.2.2) tc →
  ∃ s, BookAnalyzer.write_tables self total counts tc (Py.dict_keys tc)
       = (Ok (), s).
Proof.
  intros Hcost Hlen. unfold BookAnalyzer.write_tables.
  destruct (for_each_Ok [GPT4oMini; GPT4O] (BookAnalyzer.write_cost_row self))
    as [s1 H1].
  { apply Forall_forall. intros model Hin.
    destruct (Hcost model Hin) as [tokens Henc].
    by apply (write_cost_row_Ok _ _ tokens). }
  destruct (for_each_Ok (Py.enumerate counts)
              (BookAnalyzer.write_chapter_row tc (Py.dict_keys tc)))
    as [s2 H2].
  { apply Forall_forall. intros [i wc] Hin.
    apply enumerate_index_lt in Hin. apply write_chapter_row_Ok.
    eapply Forall_impl; [exact Hlen|]. simpl. lia. }
  rewrite !block_write_then, (block_bind_Ok _ _ () s1 H1).
  rewrite ?block_write_then, H2. by eexists.
Qed.

(** A run on a constructed analyzer completes, and leaves a report at the
    destination, whenever the encoders take every chapter and the joined
    text and the destination can be opened. *)
Lemma write_statistics_completes path chs save_path w :
  let self := BookAnalyzer.make path chs in
  let destination := BookAnalyzer.resolve_save_path self save_path in
  (∀ model, model ∈ BookAnalyzer.models →
            Forall (λ chapter, is_Some (encode_tokens model chapter)) chs) →
  (∀ model, model ∈ BookAnalyzer.models →
            is_Some (encode_tokens model (BookAnalyzer.full_text self))) →
  destination ∉ denied w →
  ∃ text,
    BookAnalyzer.write_statistics self save_path w
    = (Ok (), World (<[destination := text]> (files w)) (denied w)).
Proof.
  intros self destination Henc Hcost Hopen.
  rewrite write_statistics_unfold.
  destruct (token_counts_succeeds self Henc) as [tc Htc]. rewrite Htc.
  unfold File.with_open_w. fold destination. rewrite decide_False by done.
  rewrite write_report_split.
  destruct (write_tables_Ok self (BookAnalyzer.word_counts self).1
              (BookAnalyzer.word_counts self).2 tc Hcost) as [s ->].
  - eapply Forall_impl; [exact (token_counts_lengths self tc Htc)|].
    intros entry ->. simpl. by rewrite !length_fmap.
  - by eexists.
Qed.

Lemma join_cons_cons (sep x y : string) (xs : list string) :
  Py.join sep (x :: y :: xs) = x +:+ sep +:+ Py.join sep (y :: xs).
Proof. reflexivity. Qed.

Lemma join_no_words (n : nat) :
  Py.join " " (replicate n "") = spaces (n - 1).
Proof.
  destruct n as [|n]; [done|]. replace (S n - 1) with n by lia.
  induction n as [|n IH]; [done|].
  change (replicate (S (S n)) "") with ("" :: "" :: replicate n "").
  rewrite join_cons_cons.
  change ("" :: replicate n "") with (replicate (S n) "").
  by rewrite IH.
Qed.

Lemma no_words_tokenized chs :
  Forall (λ chapter, word_tokenize chapter = []) chs →
  word_tokenize <$> chs = replicate (length chs) [].
Proof.
  induction 1 as [|ch chs Hch _ IH]; [done|].
  rewrite fmap_cons, Hch, IH. done.
Qed.

End CompletionFacts.

(** C5, as stated, fails for a book of several empty chapters. On the two
    chapters [""] and [""], with one token for each character, there are no
    words and the frequency table is empty, but the text that
    [calculate_cost] encodes is the single space that joins the chapters,
    which is one token: the cost is 1/1000 of the price, not 0. *)
Lemma empty_chapters_cost_not_zero :
  let self := @BookAnalyzer.make Stub.total "book.epub" [""; ""] in
  BookAnalyzer.tokenized_chapters self = [[]; []]
  ∧ BookAnalyzer.word_counts self = (0, [0; 0])
  ∧ BookAnalyzer.word_frequencies self = []
  ∧ BookAnalyzer.full_text self = " "
  ∧ @BookAnalyzer.calculate_cost Stub.total self Stub.mini
    = Ok (1 # 100000)%Q
  ∧ ¬ (1 # 100000 == 0)%Q.
Proof. repeat split; try reflexivity. intros E. discriminate E. Qed.

(** C5, amended. For every book with zero chapters, or whose chapters all
    have no words: the total word count is 0 and the frequency table is
    empty; the text that is costed is one space for each chapter after the
    first, so the cost for a model is 0 whenever its encoder gives no token
    for that text (with zero chapters or one chapter, the empty text);
    nothing is divided by a count; and a run of [write_statistics] completes
    and leaves a report at the destination whenever the encoders take the
    chapters and that text and the destination can be opened. *)
Theorem empty_book_statistics `{Collaborators}
    (path : string) (chs : list string) :
  Forall (λ chapter, word_tokenize chapter = []) chs →
  let self := BookAnalyzer.make path chs in
  let joined := spaces (length chs - 1) in
  BookAnalyzer.word_counts self = (0, replicate (length chs) 0)
  ∧ BookAnalyzer.word_frequencies self = []
  ∧ BookAnalyzer.full_text self = joined
  ∧ (length chs ≤ 1 → joined = "")
  ∧ (∀ model, encode_tokens model joined = Some [] →
       ∃ cost, BookAnalyzer.calculate_cost self model = Ok cost
               ∧ (cost == 0)%Q)
  ∧ (∀ save_path w,
       let destination := BookAnalyzer.resolve_save_path self save_path in
       (∀ model, model ∈ BookAnalyzer.models →
          Forall (λ chapter, is_Some (encode_tokens model chapter)) chs
          ∧ is_Some (encode_tokens model joined)) →
       destination ∉ denied w →
       ∃ text,
         BookAnalyzer.write_statistics self save_path w
         = (Ok (), World (<[destination := text]> (files w)) (denied w))).
Proof.
  intros Hempty self joined.
  assert (BookAnalyzer.tokenized_chapters self = replicate (length chs) [])
    as Htok by (by apply no_words_tokenized).
  assert (BookAnalyzer.full_text self = joined) as Htext.
  { unfold BookAnalyzer.full_text. rewrite Htok, fmap_replicate.
    apply join_no_words. }
  split; [|split; [|split; [done|split; [|split]]]].
  - unfold BookAnalyzer.word_counts. rewrite Htok, fmap_replicate. simpl.
    f_equal. rewrite sum_is_sum_list, sum_list_replicate. lia.
  - unfold BookAnalyzer.word_frequencies, BookAnalyzer.all_tokens.
    rewrite Htok. replace (concat (replicate (length chs) [])) with (@nil string);
      [done|].
    clear. induction (length chs) as [|n IH]; [done|]. simpl. by rewrite <- IH.
  - intros Hlen. subst joined. by replace (length chs - 1) with 0 by lia.
  - intros model Henc. eexists. split.
    + unfold BookAnalyzer.calculate_cost. rewrite Htext.
      by apply calculate_cost_encoded.
    + apply cost_of_no_tokens.
  - intros save_path w destination Henc Hopen.
    apply write_statistics_completes; [| |done].
    + intros model Hin. by apply Henc.
    + intros model Hin. fold self. rewrite Htext. by apply Henc.
Qed.

Lemma empty_book_statistics_witness :
  let self := @BookAnalyzer.make Stub.total "book.epub" [] in
  BookAnalyzer.word_counts self = (0, [])
  ∧ BookAnalyzer.word_frequencies self = []
  ∧ (∃ cost, @BookAnalyzer.calculate_cost Stub.total self Stub.big = Ok cost
             ∧ (cost == 0)%Q)
  ∧ ∃ text,
      @BookAnalyzer.write_statistics Stub.total self None Stub.empty_world
      = (Ok (), World {["book.epub_stats.md" := text]} ∅).
Proof.
  intros self.
  destruct (@empty_book_statistics Stub.total "book.epub" [] (Forall_nil_2 _))
    as (Hcounts & Hfreq & _ & _ & Hcost & Hreport).
  split; [exact Hcounts|]. split; [exact Hfreq|]. split.
  - apply (Hcost Stub.big). reflexivity.
  - apply (Hreport None Stub.empty_world).
    + intros model _. split; [constructor|eexists; reflexivity].
    + simpl. apply not_elem_of_empty.
Defined.

(** ** A run that fails *)

Section FailureFacts.
Context `{Collaborators}.
Implicit Types (self : BookAnalyzer.t) (w : world).

Lemma write_tables_first_cost_raises self total counts tc names :
  encode_tokens GPT4oMini (BookAnalyzer.full_text self) = None →
  BookAnalyzer.write_tables self total counts tc names
  = (Raise EncodingError, report_opening total).
Proof.
  intros Henc. unfold BookAnalyzer.write_tables.
  assert (for_each [GPT4oMini; GPT4O] (BookAnalyzer.write_cost_row self)
          = (Raise EncodingError, "")) as Hrows.
  { simpl. by rewrite (write_cost_row_Raise self GPT4oMini Henc). }
  rewrite ?block_write_then.
  rewrite (block_bind_Raise _ _ EncodingError "" Hrows).
  cbn [fst snd]. unfold report_opening. by rewrite append_nil_r.
Qed.

Lemma write_report_first_cost_raises self total counts tc table names :
  encode_tokens GPT4oMini (BookAnalyzer.full_text self) = None →
  BookAnalyzer.write_report self total counts tc table names
  = (Raise EncodingError, report_opening total).
Proof.
  intros Henc. rewrite write_report_split.
  by rewrite write_tables_first_cost_raises.
Qed.

Lemma with_open_w_denied {A} (path : string) (body : Block A) w :
  path ∈ denied w → File.with_open_w path body w = (Raise IOError, w).
Proof. intros Hin. unfold File.with_open_w. by rewrite decide_True. Qed.

Lemma with_open_w_opened {A} (path : string) (body : Block A) w :
  path ∉ denied w →
  File.with_open_w path body w
  = (body.1, World (<[path := body.2]> (files w)) (denied w)).
Proof. intros Hin. unfold File.with_open_w. by rewrite decide_False. Qed.

End FailureFacts.

(** C8, as stated, fails. With an encoder that raises on a text of more
    than 19 characters, the two chapters of the book (11 and 19 characters)
    are counted, the destination is opened, and the cost of the joined text
    (31 characters) raises inside the block: the run fails, and the file at
    the destination, which did not exist before, holds the opening of the
    report. The flat script fails in the same way, leaving the lines it had
    written. *)
Lemma failed_run_leaves_partial_file :
  let self := @BookAnalyzer.make (Stub.limited 19) "book.epub" Stub.book in
  let run :=
    @BookAnalyzer.write_statistics (Stub.limited 19) self None
      Stub.empty_world in
  let flat := @EpubWordAnalyzer.make (Stub.limited 19) Stub.book in
  let flat_run :=
    @EpubWordAnalyzer.write_word_statistics (Stub.limited 19) flat
      "book_word_stats.txt" Stub.empty_world in
  files Stub.empty_world !! "book.epub_stats.md" = None
  ∧ run.1 = Raise EncodingError
  ∧ files run.2 !! "book.epub_stats.md"
    = Some ("# Book Statistics" +:+ Fmt.LF +:+ Fmt.LF
            +:+ "## Overview" +:+ Fmt.LF +:+ Fmt.LF
            +:+ "Total Word Count: 8" +:+ Fmt.LF +:+ Fmt.LF
            +:+ "| Model | Cost |" +:+ Fmt.LF
            +:+ "|-------|------|" +:+ Fmt.LF)
  ∧ flat_run.1 = Raise EncodingError
  ∧ files flat_run.2 !! "book_word_stats.txt"
    = Some ("Total Word Count: 8" +:+ Fmt.LF +:+ Fmt.LF
            +:+ "Chapter 1 Word Count: 3" +:+ Fmt.LF
            +:+ "Chapter 2 Word Count: 5" +:+ Fmt.LF
            +:+ Fmt.LF +:+ "Cost Calculations for each model:" +:+ Fmt.LF).
Proof. repeat split; vm_compute; reflexivity. Qed.

(** C8, amended. A run of [write_statistics] that fails while it counts
    the tokens, or on opening the destination, leaves every file as it was.
    After that the report is not built in memory: it is written to the
    opened file piece by piece, and when the block fails the file at the
    destination holds the pieces written until then; when the cost for the
    first model raises, these are the heading, the overview and the head of
    the cost table. [write_word_statistics] of the flat script writes in the
    same way. *)
Theorem failed_run_keeps_written_pieces `{Collaborators}
    (self : BookAnalyzer.t) (save_path : option string)
    (flat : EpubWordAnalyzer.t) (output_file : string) (w : world) :
  let destination := BookAnalyzer.resolve_save_path self save_path in
  let run := BookAnalyzer.write_statistics self save_path w in
  let flat_run := EpubWordAnalyzer.write_word_statistics flat output_file w in
  let total := (BookAnalyzer.word_counts self).1 in
  (∀ e, BookAnalyzer.token_counts self = Raise e → run = (Raise e, w))
  ∧ (destination ∈ denied w → ∃ e, run = (Raise e, w))
  ∧ (∀ tc, BookAnalyzer.token_counts self = Ok tc →
       destination ∉ denied w →
       let block :=
         BookAnalyzer.write_report self total
           (BookAnalyzer.word_counts self).2 tc
           (BookAnalyzer.word_frequencies self) (Py.dict_keys tc) in
       run = (block.1, World (<[destination := block.2]> (files w)) (denied w))
       ∧ (encode_tokens GPT4oMini (BookAnalyzer.full_text self) = None →
          block = (Raise EncodingError, report_opening total)))
  ∧ (output_file ∈ denied w → flat_run = (Raise IOError, w))
  ∧ (output_file ∉ denied w →
       let block :=
         EpubWordAnalyzer.write_report flat
           (EpubWordAnalyzer.get_word_counts flat).1
           (EpubWordAnalyzer.get_word_counts flat).2
           (EpubWordAnalyzer.get_word_frequency flat) in
       flat_run
       = (block.1, World (<[output_file := block.2]> (files w)) (denied w))).
Proof.
  intros destination run flat_run total.
  subst run. rewrite write_statistics_unfold.
  split; [|split; [|split; [|split]]].
  - by intros e ->.
  - intros Hdenied. destruct (BookAnalyzer.token_counts self) as [tc|e].
    + exists IOError. by apply with_open_w_denied.
    + by exists e.
  - intros tc -> Hopen block. split.
    + by apply with_open_w_opened.
    + apply write_report_first_cost_raises.
  - intros Hdenied. by apply with_open_w_denied.
  - intros Hopen block. by apply with_open_w_opened.
Qed.

Lemma failed_run_keeps_written_pieces_witness :
  let locked := World ∅ {["book.epub_stats.md"; "book_word_stats.txt"]} in
  (let self := @BookAnalyzer.make (Stub.limited 5) "book.epub" Stub.book in
   @BookAnalyzer.write_statistics (Stub.limited 5) self None locked
   = (Raise EncodingError, locked)
   ∧ ∃ e, @BookAnalyzer.write_statistics (Stub.limited 5) self None locked
          = (Raise e, locked))
  ∧ (let flat := @EpubWordAnalyzer.make (Stub.limited 5) Stub.book in
     @EpubWordAnalyzer.write_word_statistics (Stub.limited 5) flat
       "book_word_stats.txt" locked
     = (Raise IOError, locked))
  ∧ (let self := @BookAnalyzer.make (Stub.limited 19) "book.epub" Stub.book in
     @BookAnalyzer.write_statistics (Stub.limited 19) self None
       Stub.empty_world
     = (Raise EncodingError,
        World {["book.epub_stats.md" := report_opening 8]} ∅))
  ∧ (let flat := @EpubWordAnalyzer.make (Stub.limited 19) Stub.book in
     (@EpubWordAnalyzer.write_word_statistics (Stub.limited 19) flat
        "book_word_stats.txt" Stub.empty_world).1
     = Raise EncodingError).
Proof.
  intros locked.
  pose proof (@failed_run_keeps_written_pieces (Stub.limited 5)
                (@BookAnalyzer.make (Stub.limited 5) "book.epub" Stub.book)
                None (@EpubWordAnalyzer.make (Stub.limited 5) Stub.book)
                "book_word_stats.txt" locked)
    as (Hcount & Hdenied & _ & Hflat & _).
  pose proof (@failed_run_keeps_written_pieces (Stub.limited 19)
                (@BookAnalyzer.make (Stub.limited 19) "book.epub" Stub.book)
                None (@EpubWordAnalyzer.make (Stub.limited 19) Stub.book)
                "book_word_stats.txt" Stub.empty_world)
    as (_ & _ & Hblock & _ & Hflat_open).
  cbv zeta. split; [split|split; [|split]].
  - apply Hcount. reflexivity.
  - apply Hdenied. simpl. set_solver.
  - apply Hflat. simpl. set_solver.
  - destruct (Hblock _ eq_refl) as [Hrun Hopening].
    + simpl. apply not_elem_of_empty.
    + rewrite Hrun, Hopening; reflexivity.
  - rewrite Hflat_open; [reflexivity|]. simpl. apply not_elem_of_empty.
Defined.

(** * More properties of the analyzers *)

(** ** What a run does to the files *)

Section FileEffects.
Context `{Collaborators}.

Lemma with_open_w_changes_only {A} (path : string) (body : Block A) w :
  changes_only path w (File.with_open_w path body w).2.
Proof.
  unfold File.with_open_w. case_decide; simpl; [done|].
  split; [done|]. intros p Hp. simpl. by rewrite lookup_insert_ne.
Qed.

Lemma with_open_w_again {A} (path : string) (body : Block A) w :
  File.with_open_w path body (File.with_open_w path body w).2
  = File.with_open_w path body w.
Proof.
  unfold File.with_open_w.
  destruct (decide (path ∈ denied w)) as [Hd|Hd] eqn:E; simpl.
  - by rewrite E.
  - rewrite E. simpl. by rewrite insert_insert_eq.
Qed.

Lemma with_open_w_discards {A} (path old : string) (body : Block A) w :
  path ∉ denied w →
  File.with_open_w path body (with_file path old w)
  = File.with_open_w path body w.
Proof.
  intros Hd. unfold File.with_open_w, with_file. simpl.
  rewrite !decide_False by done. by rewrite insert_insert_eq.
Qed.

End FileEffects.

(** X1. A run of [write_statistics], and a run of [write_word_statistics]
    of the flat script, whether it completes or fails, changes no file other
    than its destination and leaves the set of unwritable paths as it was. *)
Theorem runs_change_only_the_destination `{Collaborators}
    (self : BookAnalyzer.t) (save_path : option string)
    (flat : EpubWordAnalyzer.t) (output_file : string) (w : world) :
  changes_only (BookAnalyzer.resolve_save_path self save_path) w
               (BookAnalyzer.write_statistics self save_path w).2
  ∧ changes_only output_file w
                 (EpubWordAnalyzer.write_word_statistics flat output_file w).2.
Proof.
  split.
  - rewrite write_statistics_unfold.
    destruct (BookAnalyzer.token_counts self) as [tc|e]; [|done].
    apply with_open_w_changes_only.
  - apply with_open_w_changes_only.
Qed.

(** X2. A run of [write_statistics] replaces the destination: run a second
    time on the files the first run left, it ends the same way and leaves
    the same files; and when the tokens are counted and the destination can
    be opened, the outcome does not depend on what the destination held
    before. *)
Theorem write_statistics_replaces_destination `{Collaborators}
    (self : BookAnalyzer.t) (save_path : option string) (w : world) :
  let destination := BookAnalyzer.resolve_save_path self save_path in
  let run := BookAnalyzer.write_statistics self save_path w in
  BookAnalyzer.write_statistics self save_path run.2 = run
  ∧ (∀ tc old,
       BookAnalyzer.token_counts self = Ok tc →
       destination ∉ denied w →
       BookAnalyzer.write_statistics self save_path
         (with_file destination old w) = run).
Proof.
  intros destination run. subst run destination. split.
  - rewrite !write_statistics_unfold.
    destruct (BookAnalyzer.token_counts self) as [tc|e]; [|done].
    apply with_open_w_again.
  - intros tc old Htc Hopen. rewrite !write_statistics_unfold, Htc.
    by apply with_open_w_discards.
Qed.

Lemma write_statistics_replaces_destination_witness :
  let self := @BookAnalyzer.make Stub.total "book.epub" Stub.book in
  @BookAnalyzer.write_statistics Stub.total self None
    (with_file "book.epub_stats.md" "an older report" Stub.empty_world)
  = @BookAnalyzer.write_statistics Stub.total self None Stub.empty_world.
Proof.
  intros self.
  destruct (@write_statistics_replaces_destination Stub.total self None
              Stub.empty_world) as [_ Hold].
  apply (Hold _ "an older report" eq_refl). simpl. apply not_elem_of_empty.
Defined.

(** ** How [token_counts] ends *)

Section TokenCountOutcomes.
Context `{Collaborators}.
Implicit Types (self : BookAnalyzer.t) (model : LLMClient).

Lemma mapM_result_Raise {A B} (f : A → result B) (l : list A) e :
  mapM f l = Raise e → ∃ x, x ∈ l ∧ f x = Raise e.
Proof.
  induction l as [|x l IH]; simpl; [done|].
  unfold mbind, result_bind, mret, result_ret.
  destruct (f x) as [y|e'] eqn:Hx.
  - fold (mapM f l). destruct (mapM f l) as [ys|e'']; [done|].
    intros [= ->]. destruct (IH eq_refl) as (x' & Hin & Hx').
    exists x'. split; [by right|done].
  - intros [= ->]. exists x. split; [left|done].
Qed.

Lemma count_tokens_Raise model chapter e :
  count_tokens model chapter = Raise e →
  e = EncodingError ∧ encode_tokens model chapter = None.
Proof.
  unfold count_tokens, CostCalculator.encoding_encode.
  destruct (encode_tokens model chapter); simpl; [done|]. by intros [= <-].
Qed.

Lemma token_counts_of_Raise self model e :
  BookAnalyzer.token_counts_of self model = Raise e →
  e = EncodingError
  ∧ ∃ chapter, chapter ∈ BookAnalyzer.chapters self
               ∧ encode_tokens model chapter = None.
Proof.
  rewrite token_counts_of_once.
  destruct (mapM (count_tokens model) (BookAnalyzer.chapters self))
    as [counts|e'] eqn:Hm; simpl; [done|].
  intros [= ->]. apply mapM_result_Raise in Hm as (chapter & Hin & Hraise).
  apply count_tokens_Raise in Hraise as [-> Hnone]. eauto.
Qed.

Lemma token_counts_of_encoded self model counts :
  BookAnalyzer.token_counts_of self model = Ok counts →
  Forall (λ chapter, is_Some (encode_tokens model chapter))
         (BookAnalyzer.chapters self)
  ∧ counts = counts_for model (BookAnalyzer.chapters self).
Proof.
  intros Hof.
  assert (Forall (λ chapter, is_Some (encode_tokens model chapter))
                 (BookAnalyzer.chapters self)) as Hall.
  { destruct counts as [total per].
    apply token_counts_of_Ok in Hof as [_ Hper].
    induction Hper as [|ch n chs per (tokens & Henc & _) _ IH];
      constructor; [by exists tokens|done]. }
  split; [done|].
  rewrite (token_counts_of_total self model Hall) in Hof. by injection Hof.
Qed.

End TokenCountOutcomes.

(** X3. [token_counts] gives all of its table or nothing: when it returns,
    the encoder of each configured model took every chapter; otherwise the
    encoder of a configured model refused a chapter, and what is raised is
    the encoder's error, whatever the other chapters and the other model. *)
Theorem token_counts_all_or_nothing `{Collaborators} (self : BookAnalyzer.t) :
  match BookAnalyzer.token_counts self with
  | Ok _ =>
      ∀ model, model ∈ BookAnalyzer.models →
        Forall (λ chapter, is_Some (encode_tokens model chapter))
               (BookAnalyzer.chapters self)
  | Raise e =>
      e = EncodingError
      ∧ ∃ model chapter,
          model ∈ BookAnalyzer.models
          ∧ chapter ∈ BookAnalyzer.chapters self
          ∧ encode_tokens model chapter = None
  end.
Proof.
  unfold BookAnalyzer.token_counts, BookAnalyzer.models. simpl.
  destruct (BookAnalyzer.token_counts_of self GPT4oMini) as [c1|e1] eqn:H1.
  - simpl.
    destruct (BookAnalyzer.token_counts_of self GPT4O) as [c2|e2] eqn:H2;
      simpl.
    + intros model Hin.
      apply elem_of_cons in Hin as [->|Hin];
        [|apply list_elem_of_singleton in Hin as ->].
      * by apply token_counts_of_encoded in H1 as [? _].
      * by apply token_counts_of_encoded in H2 as [? _].
    + apply token_counts_of_Raise in H2 as (-> & chapter & Hin & Hnone).
      split; [done|]. exists GPT4O, chapter.
      split; [right; left|done].
  - simpl. apply token_counts_of_Raise in H1 as (-> & chapter & Hin & Hnone).
    split; [done|]. exists GPT4oMini, chapter. split; [left|done].
Qed.

(** X4. When [token_counts] returns, its table is keyed by the names of
    the configured models in their order, and holds for each the total and
    the per-chapter counts of the raw chapters; when the two models have the
    same name the table has that one key, with the counts of the second
    model. *)
Theorem token_counts_table `{Collaborators}
    (self : BookAnalyzer.t) (tc : Py.dict (nat * list nat)) :
  BookAnalyzer.token_counts self = Ok tc →
  let chs := BookAnalyzer.chapters self in
  tc = if decide (model_name GPT4oMini = model_name GPT4O)
       then [(model_name GPT4O, counts_for GPT4O chs)]
       else [(model_name GPT4oMini, counts_for GPT4oMini chs);
             (model_name GPT4O, counts_for GPT4O chs)].
Proof.
  intros (c1 & c2 & H1 & H2 & ->)%token_counts_inv chs.
  apply token_counts_of_encoded in H1 as [_ ->], H2 as [_ ->].
  simpl. case_decide as Hn; [|done]. by rewrite Hn.
Qed.

Lemma token_counts_table_witness :
  ∃ tc,
    @BookAnalyzer.token_counts Stub.total
      (@BookAnalyzer.make Stub.total "book.epub" Stub.book) = Ok tc
    ∧ tc = [("gpt-4o-mini", (30, [11; 19])); ("gpt-4o", (30, [11; 19]))].
Proof.
  eexists. split; [reflexivity|].
  rewrite (@token_counts_table Stub.total
             (@BookAnalyzer.make Stub.total "book.epub" Stub.book)
             _ eq_refl).
  reflexivity.
Defined.

(** ** How [write_statistics] ends *)

Section RunOutcomes.
Context `{Collaborators}.
Implicit Types (self : BookAnalyzer.t) (w : world).




End RunOutcomes.

Section RunOutcomeFacts.
Context `{Collaborators}.



End RunOutcomeFacts.




(** The analyzer state must be a constructed one: with more tokenized
    chapters than chapters, the row of the second chapter has no token
    count to show. *)
Example unaligned_state_raises_IndexError :
  (@BookAnalyzer.write_statistics Stub.total
     (BookAnalyzer.Build_t "book.epub" ["one"] [["one"]; ["two"]])
     None Stub.empty_world).1
  = Raise IndexError.
Proof. reflexivity. Qed.

(** ** Reading a comma-grouped count back *)

Section CommaFacts.

#[local] Abbreviation no_comma := (λ c : ascii, c ≠ ","%char).

Lemma filter_all {A} (P : A → Prop) `{∀ x, Decision (P x)} (l : list A) :
  Forall P l → filter P l = l.
Proof.
  induction 1 as [|x l Hx _ IH]; [done|].
  by rewrite filter_cons_True, IH.
Qed.

Lemma digits_no_comma (d : Decimal.uint) :
  Forall no_comma (String.list_ascii_of_string (NilEmpty.string_of_uint d)).
Proof. induction d; simpl; constructor; done. Qed.

Lemma decimal_no_comma (n : nat) :
  Forall no_comma (String.list_ascii_of_string (Fmt.decimal n)).
Proof.
  unfold Fmt.decimal, NilZero.string_of_uint.
  destruct (Nat.to_uint n) eqn:E; try (rewrite <- E; apply digits_no_comma).
  repeat constructor. done.
Qed.

Lemma group3_no_comma_upto (k : nat) (l : list ascii) :
  length l ≤ k → Forall no_comma l → filter no_comma (Fmt.group3 l) = l.
Proof.
  revert l. induction k as [|k IH]; intros l Hlen Hall.
  - destruct l; [done|simpl in Hlen; lia].
  - destruct l as [|a [|b [|c [|d rest]]]]; try by apply filter_all.
    change (Fmt.group3 (a :: b :: c :: d :: rest))
      with (a :: b :: c :: ","%char :: Fmt.group3 (d :: rest)).
    apply Forall_cons in Hall as [Ha Hall].
    apply Forall_cons in Hall as [Hb Hall].
    apply Forall_cons in Hall as [Hc Hall].
    rewrite !filter_cons_True by done.
    rewrite filter_cons_False by (intros Hne; by apply Hne).
    rewrite IH; [done| |done]. simpl in *. lia.
Qed.

Lemma without_commas_comma (n : nat) :
  without_commas (Fmt.comma n) = Fmt.decimal n.
Proof.
  unfold without_commas, Fmt.comma.
  rewrite String.list_ascii_of_string_of_list_ascii, filter_reverse.
  rewrite (group3_no_comma_upto _ _ (Nat.le_refl _))
    by (apply Forall_reverse, decimal_no_comma).
  by rewrite reverse_involutive, String.string_of_list_ascii_of_string.
Qed.

End CommaFacts.

(** X7. The counts that the tabular report shows with a comma between
    groups of three digits read back exactly: dropping the commas gives the
    decimal digits of the count, and reading these gives the count. So the
    total word count of the overview, and the counts of the chapter table,
    lose nothing in the rendering. *)
Theorem comma_grouped_count_reads_back (n : nat) :
  without_commas (Fmt.comma n) = Fmt.decimal n
  ∧ parse_count (Fmt.comma n) = Some n.
Proof.
  split; [apply without_commas_comma|].
  unfold parse_count. rewrite without_commas_comma. unfold Fmt.decimal.
  pose proof (DecimalNat.Unsigned.of_to n) as Hn.
  destruct (NilZero.usu_gen (Nat.to_uint n)) as [-> | Hz].
  - simpl. by rewrite Hn.
  - rewrite Hz. simpl. f_equal.
    destruct (Nat.to_uint n) eqn:E;
      try (rewrite NilZero.usu in Hz by done; injection Hz as Hz;
           rewrite Hz in Hn; exact Hn).
    exact Hn.
Qed.

(** ** The report of the flat script *)

Section FlatReportFacts.
Context `{Collaborators}.
Implicit Types (flat : EpubWordAnalyzer.t) (w : world).

Lemma chapter_lines_written (rows : list (nat * nat)) :
  for_each rows
    (λ '(i, count),
       File.write
         ("Chapter " +:+ Fmt.decimal (i + 1) +:+ " Word Count: "
                     +:+ Fmt.decimal count +:+ Fmt.LF))
  = (Ok (), chapter_lines_text rows).
Proof.
  induction rows as [|[i count] rows IH]; [done|].
  cbn [for_each]. rewrite block_write_then, IH. done.
Qed.

Lemma frequency_lines_written (table : list (string * nat)) :
  for_each table
    (λ '(word, frequency),
       File.write (word +:+ ": " +:+ Fmt.decimal frequency +:+ Fmt.LF))
  = (Ok (), frequency_lines_text table).
Proof.
  induction table as [|[word frequency] table IH]; [done|].
  cbn [for_each]. rewrite block_write_then, IH. done.
Qed.

(** The block of the flat script: the opening, then the cost lines, then
    the frequency listing when the cost lines were written. *)
Lemma flat_write_report_split flat total counts table :
  EpubWordAnalyzer.write_report flat total counts table
  = match for_each (Py.dict_keys model_costs)
            (EpubWordAnalyzer.write_cost_line flat) with
    | (Ok _, cost_lines) =>
        (Ok (), flat_report_opening total counts
                  +:+ cost_lines +:+ frequency_listing_heading
                  +:+ frequency_lines_text table)
    | (Raise e, cost_lines) =>
        (Raise e, flat_report_opening total counts +:+ cost_lines)
    end.
Proof.
  unfold EpubWordAnalyzer.write_report.
  rewrite block_write_then.
  rewrite (block_bind_Ok _ _ () _ (chapter_lines_written _)).
  rewrite block_write_then.
  destruct (for_each (Py.dict_keys model_costs)
              (EpubWordAnalyzer.write_cost_line flat))
    as [[[]|e] cost_lines].
  - rewrite (block_bind_Ok _ _ () cost_lines eq_refl).
    rewrite block_write_then, frequency_lines_written.
    cbn [fst snd]. unfold flat_report_opening, frequency_listing_heading.
    by rewrite <- !append_assoc.
  - rewrite (block_bind_Raise _ _ e cost_lines eq_refl).
    cbn [fst snd]. unfold flat_report_opening.
    by rewrite <- !append_assoc.
Qed.

Lemma write_word_statistics_unfold flat output_file w :
  EpubWordAnalyzer.write_word_statistics flat output_file w
  = File.with_open_w output_file
      (EpubWordAnalyzer.write_report flat
         (EpubWordAnalyzer.get_word_counts flat).1
         (EpubWordAnalyzer.get_word_counts flat).2
         (EpubWordAnalyzer.get_word_frequency flat)) w.
Proof. reflexivity. Qed.

End FlatReportFacts.

(** X8. Every run of [write_word_statistics] of the flat script that opens
    its output file leaves in it, first, the total word count and one line
    for each chapter, in order and numbered from 1, then the heading of the
    costs, whether the run then completes or fails. *)
Theorem flat_report_starts_with_counts `{Collaborators}
    (flat : EpubWordAnalyzer.t) (output_file : string) (w : world) :
  output_file ∉ denied w →
  let counts := EpubWordAnalyzer.get_word_counts flat in
  ∃ rest,
    files (EpubWordAnalyzer.write_word_statistics flat output_file w).2
      !! output_file
    = Some (flat_report_opening counts.1 counts.2 +:+ rest).
Proof.
  intros Hopen counts. subst counts.
  rewrite write_word_statistics_unfold.
  rewrite with_open_w_opened by done. cbn [snd files].
  rewrite lookup_insert_eq, flat_write_report_split.
  destruct (for_each _ _) as [[[]|e] cost_lines]; cbn [snd]; by eexists.
Qed.

Lemma flat_report_starts_with_counts_witness :
  ∃ rest,
    files (@EpubWordAnalyzer.write_word_statistics (Stub.limited 19)
             (@EpubWordAnalyzer.make (Stub.limited 19) Stub.book)
             "book_word_stats.txt" Stub.empty_world).2
      !! "book_word_stats.txt"
    = Some (flat_report_opening 8 [3; 5] +:+ rest).
Proof.
  apply (@flat_report_starts_with_counts (Stub.limited 19)
           (@EpubWordAnalyzer.make (Stub.limited 19) Stub.book)
           "book_word_stats.txt" Stub.empty_world).
  simpl. apply not_elem_of_empty.
Defined.

(** X9. In the report of every run of [write_word_statistics] of the flat
    script that completes, the frequency listing is the last thing in the
    file and has one line for every entry of the frequency table, in the
    order of the table: the flat script has no limit of 200 words. *)
Theorem flat_report_lists_every_word `{Collaborators}
    (flat : EpubWordAnalyzer.t) (output_file : string) (w w' : world) :
  EpubWordAnalyzer.write_word_statistics flat output_file w = (Ok (), w') →
  ∃ before,
    files w' !! output_file
    = Some (before +:+ frequency_listing_heading
              +:+ frequency_lines_text
                    (EpubWordAnalyzer.get_word_frequency flat)).
Proof.
  rewrite write_word_statistics_unfold. unfold File.with_open_w.
  case_decide; [done|]. rewrite flat_write_report_split.
  destruct (for_each _ _) as [[[]|e] cost_lines]; [|done].
  cbn [fst snd]. intros [= <-]. cbn [files]. rewrite lookup_insert_eq.
  eexists. by rewrite append_assoc.
Qed.

Lemma flat_report_lists_every_word_witness :
  ∃ before,
    files (@EpubWordAnalyzer.write_word_statistics Stub.total
             (@EpubWordAnalyzer.make Stub.total Stub.book)
             "book_word_stats.txt" Stub.empty_world).2
      !! "book_word_stats.txt"
    = Some (before +:+ frequency_listing_heading
              +:+ frequency_lines_text
                    [("the", 3); ("cat", 2); ("sat", 1); ("dog", 1);
                     ("ran", 1)]).
Proof.
  apply (@flat_report_lists_every_word Stub.total
           (@EpubWordAnalyzer.make Stub.total Stub.book)
           "book_word_stats.txt" Stub.empty_world).
  reflexivity.
Defined.

(** ** What an opened destination always holds *)

Section OpeningFacts.
Context `{Collaborators}.

Lemma write_tables_opening (self : BookAnalyzer.t) total counts tc names :
  ∃ rest,
    (BookAnalyzer.write_tables self total counts tc names).2
    = report_opening total +:+ rest.
Proof.
  unfold BookAnalyzer.write_tables.
  rewrite 5!block_write_then. cbn [snd]. unfold report_opening.
  eexists. by rewrite <- !append_assoc.
Qed.

Lemma write_report_opening (self : BookAnalyzer.t) total counts tc table names :
  ∃ rest,
    (BookAnalyzer.write_report self total counts tc table names).2
    = report_opening total +:+ rest.
Proof.
  rewrite write_report_split.
  destruct (write_tables_opening self total counts tc names) as [rest Hrest].
  destruct (BookAnalyzer.write_tables self total counts tc names)
    as [[[]|e] tables_text]; simpl in *; subst tables_text.
  - eexists. by rewrite <- append_assoc.
  - by eexists.
Qed.

End OpeningFacts.

(** X10. Every run of [write_statistics] that counts the tokens and opens
    the destination leaves a file that starts with the heading, the overview
    with the comma-grouped total word count, and the head of the cost table,
    whether the run then completes or fails. *)
Theorem report_starts_with_overview `{Collaborators}
    (self : BookAnalyzer.t) (save_path : option string) (w : world)
    (tc : Py.dict (nat * list nat)) :
  BookAnalyzer.token_counts self = Ok tc →
  let destination := BookAnalyzer.resolve_save_path self save_path in
  destination ∉ denied w →
  ∃ rest,
    files (BookAnalyzer.write_statistics self save_path w).2 !! destination
    = Some (report_opening (BookAnalyzer.word_counts self).1 +:+ rest).
Proof.
  intros Htc destination Hopen. subst destination.
  rewrite write_statistics_unfold, Htc.
  rewrite with_open_w_opened by done. cbn [snd files].
  rewrite lookup_insert_eq.
  destruct (write_report_opening self (BookAnalyzer.word_counts self).1
              (BookAnalyzer.word_counts self).2 tc
              (BookAnalyzer.word_frequencies self) (Py.dict_keys tc))
    as [rest ->].
  by exists rest.
Qed.

Lemma report_starts_with_overview_witness :
  ∃ rest,
    files (@BookAnalyzer.write_statistics Stub.total
             (@BookAnalyzer.make Stub.total "book.epub" Stub.book)
             None Stub.empty_world).2 !! "book.epub_stats.md"
    = Some (report_opening 8 +:+ rest).
Proof.
  apply (@report_starts_with_overview Stub.total
           (@BookAnalyzer.make Stub.total "book.epub" Stub.book)
           None Stub.empty_world _ eq_refl).
  simpl. apply not_elem_of_empty.
Defined.

(** ** The frequency table as a function of the book *)

Section TableFacts.
Implicit Types (tcs : list (list string)) (stream : list string).

Lemma most_common_NoDup stream : NoDup (Py.most_common (Py.Counter stream)).
Proof. eapply NoDup_fmap_1, most_common_keys_NoDup. Qed.

Lemma most_common_get stream w :
  Py.dict_get (Py.most_common (Py.Counter stream)) w
  = if decide (w ∈ stream) then Some (occurrences w stream) else None.
Proof.
  case_decide as Hin.
  - apply dict_get_elem; [apply most_common_keys_NoDup|].
    by apply most_common_entries.
  - apply dict_get_None. unfold Py.dict_keys, Py.most_common.
    rewrite sorted_by_count_desc_perm.
    change (w ∉ Py.dict_keys (Py.Counter stream)).
    by rewrite Counter_keys_elem.
Qed.

Lemma count_in_most_common stream w :
  count_in (Py.most_common (Py.Counter stream)) w = occurrences w stream.
Proof.
  unfold count_in. rewrite most_common_get. case_decide; [done|].
  by rewrite occurrences_absent.
Qed.

Lemma occurrences_Permutation w stream stream' :
  stream ≡ₚ stream' → occurrences w stream = occurrences w stream'.
Proof. intros Hp. unfold occurrences. by rewrite Hp. Qed.

Lemma concat_Permutation tcs tcs' : tcs ≡ₚ tcs' → concat tcs ≡ₚ concat tcs'.
Proof.
  induction 1 as [|tc tcs tcs' _ IH|tc1 tc2 tcs|tcs1 tcs2 tcs3 _ IH1 _ IH2];
    simpl.
  - done.
  - by rewrite IH.
  - rewrite !app_assoc. by rewrite (Permutation_app_comm tc1 tc2).
  - by rewrite IH1.
Qed.

Lemma most_common_Permutation stream stream' :
  stream ≡ₚ stream' →
  Py.most_common (Py.Counter stream) ≡ₚ Py.most_common (Py.Counter stream').
Proof.
  intros Hp. apply NoDup_Permutation; try apply most_common_NoDup.
  intros [w c]. rewrite !most_common_entries.
  rewrite (occurrences_Permutation w _ _ Hp). by rewrite Hp.
Qed.

Lemma most_common_counts_positive stream :
  Forall (λ entry, 1 ≤ entry.2) (Py.most_common (Py.Counter stream)).
Proof.
  apply Forall_forall. intros [w c] [Hin ->]%most_common_entries.
  simpl. by apply occurrences_pos.
Qed.

Lemma entries_le_sum (entries : list (string * nat)) :
  Forall (λ entry, 1 ≤ entry.2) entries →
  length entries ≤ sum_list (Py.dict_values entries).
Proof.
  induction 1 as [|[w c] entries Hc _ IH]; [done|].
  unfold Py.dict_values in *. rewrite fmap_cons.
  change (S (length entries) ≤ c + sum_list (snd <$> entries)).
  simpl in Hc. lia.
Qed.

Lemma most_common_length stream :
  length (Py.most_common (Py.Counter stream)) ≤ length stream.
Proof.
  rewrite <- (most_common_values_sum stream).
  apply entries_le_sum, most_common_counts_positive.
Qed.

End TableFacts.

(** X11. Looking a word up in the table of [word_frequencies] (and of
    [get_word_frequency] of the flat script) gives the number of its
    occurrences in the book when it occurs, and fails when it does not; no
    entry has the count 0, the table has at most as many entries as the book
    has words, and no entry has a larger count than the first entry. *)
Theorem word_frequencies_lookup (tcs : list (list string)) :
  let stream := concat tcs in
  let facts (table : Py.dict nat) :=
    (∀ w, Py.dict_get table w
          = if decide (w ∈ stream) then Some (occurrences w stream) else None)
    ∧ Forall (λ entry, 1 ≤ entry.2) table
    ∧ length table ≤ length stream
    ∧ (∀ first entry,
         head table = Some first → entry ∈ table → entry.2 ≤ first.2) in
  (∀ path chs,
     facts (BookAnalyzer.word_frequencies (BookAnalyzer.Build_t path chs tcs)))
  ∧ (∀ chs,
     facts (EpubWordAnalyzer.get_word_frequency
              (EpubWordAnalyzer.Build_t chs tcs))).
Proof.
  intros stream facts.
  assert (facts (Py.most_common (Py.Counter stream))) as Hfacts.
  { split; [intros w; apply most_common_get|].
    split; [apply most_common_counts_positive|].
    split; [apply most_common_length|].
    intros first entry Hhead Hin.
    pose proof (most_common_ranked stream) as Hsorted.
    apply head_Some in Hhead as [rest Hrest]. rewrite Hrest in Hsorted, Hin.
    apply StronglySorted_inv in Hsorted as [_ Hall].
    apply elem_of_cons in Hin as [->|Hin]; [done|].
    rewrite Forall_forall in Hall.
    destruct (Hall entry Hin) as [Hlt|[Heq _]]; lia. }
  split; intros.
  - by rewrite word_frequencies_unfold.
  - by rewrite get_word_frequency_unfold.
Qed.

(** X12. The order of the chapters does not change the counts: for two
    books with the same tokenized chapters in a different order, the total
    word count is the same, the per-chapter counts are the same up to their
    order, and the frequency tables have the same entries (the order of
    words with equal counts may differ). *)
Theorem chapter_order_keeps_counts (tcs tcs' : list (list string))
    (path path' : string) (chs chs' : list string) :
  tcs ≡ₚ tcs' →
  let self := BookAnalyzer.Build_t path chs tcs in
  let self' := BookAnalyzer.Build_t path' chs' tcs' in
  (BookAnalyzer.word_counts self).1 = (BookAnalyzer.word_counts self').1
  ∧ (BookAnalyzer.word_counts self).2 ≡ₚ (BookAnalyzer.word_counts self').2
  ∧ BookAnalyzer.word_frequencies self ≡ₚ BookAnalyzer.word_frequencies self'.
Proof.
  intros Hp self self'. subst self self'.
  rewrite !word_frequencies_unfold. simpl. rewrite !sum_is_sum_list.
  split; [by rewrite Hp|]. split; [by rewrite Hp|].
  by apply most_common_Permutation, concat_Permutation.
Qed.

Lemma chapter_order_keeps_counts_witness :
  BookAnalyzer.word_frequencies
    (BookAnalyzer.Build_t "a.epub" [] [["b"; "a"]; ["a"; "c"]])
  ≡ₚ BookAnalyzer.word_frequencies
       (BookAnalyzer.Build_t "a.epub" [] [["a"; "c"]; ["b"; "a"]]).
Proof.
  apply (chapter_order_keeps_counts
           [["b"; "a"]; ["a"; "c"]] [["a"; "c"]; ["b"; "a"]]
           "a.epub" "a.epub" [] []).
  apply Permutation_swap.
Defined.

(** X13. Counts add up over chapters put one after the other: for the book
    made of the tokenized chapters of one book followed by those of another,
    the total word count is the sum of the two totals, the per-chapter
    counts are the two lists one after the other, and every word counts in
    the frequency table as the sum of its counts in the two tables (a word
    without an entry counting as 0). *)
Theorem counts_add_over_chapters (tcs1 tcs2 : list (list string))
    (path : string) (chs : list string) :
  let self1 := BookAnalyzer.Build_t path chs tcs1 in
  let self2 := BookAnalyzer.Build_t path chs tcs2 in
  let both := BookAnalyzer.Build_t path chs (tcs1 ++ tcs2) in
  BookAnalyzer.word_counts both
  = ((BookAnalyzer.word_counts self1).1 + (BookAnalyzer.word_counts self2).1,
     (BookAnalyzer.word_counts self1).2 ++ (BookAnalyzer.word_counts self2).2)
  ∧ ∀ w, count_in (BookAnalyzer.word_frequencies both) w
         = count_in (BookAnalyzer.word_frequencies self1) w
           + count_in (BookAnalyzer.word_frequencies self2) w.
Proof.
  intros self1 self2 both. subst self1 self2 both. split.
  - unfold BookAnalyzer.word_counts. simpl.
    rewrite !sum_is_sum_list, fmap_app, sum_list_with_app. done.
  - intros w. rewrite !word_frequencies_unfold, !count_in_most_common.
    rewrite concat_app. unfold occurrences.
    by rewrite filter_app, length_app.
Qed.

(** ** The scripts *)

Section ScriptFacts.
Context `{Collaborators}.
Variable is_file_not_found : exn → bool.
Variable message : exn → string.

Lemma append_nonempty (s t : string) : t ≠ "" → s +:+ t ≠ "".
Proof. destruct s; [done|]. intros _. discriminate. Qed.

(** The scripts always name the file to write: the default path of
    [write_statistics] is not used. *)
Lemma resolve_given_path (self : BookAnalyzer.t) (root : string) :
  BookAnalyzer.resolve_save_path self (Some (root +:+ "_word_stats.md"))
  = root +:+ "_word_stats.md".
Proof.
  unfold BookAnalyzer.resolve_save_path.
  rewrite decide_False; [done|]. by apply append_nonempty.
Qed.

Lemma handle_changes_nothing e w :
  Main.left_behind (Main.handle is_file_not_found message e w) = w
  ∧ Main.ending (Main.handle is_file_not_found message e w) ≠ Main.Exit 0.
Proof. unfold Main.handle. by destruct (is_file_not_found e). Qed.




End ScriptFacts.


(** X15. When the packaged analyzer run as a script exits with code 0,
    it was given one argument, the chapters of that book were extracted,
    the report was written and is in the file [<root>_word_stats.md], and
    the one line printed names that file. *)
Theorem script_exit_zero_leaves_report `{Collaborators}
    (is_file_not_found : exn → bool) (message : exn → string)
    (argv : list string) (w : world) :
  Main.ending (Main.run is_file_not_found message argv w) = Main.Exit 0 →
  ∃ name path chs text,
    argv = [name; path]
    ∧ get_chapters path = Some chs
    ∧ let output_file := splitext_root path +:+ "_word_stats.md" in
      let left := World (<[output_file := text]> (files w)) (denied w) in
      BookAnalyzer.write_statistics (BookAnalyzer.make path chs)
        (Some output_file) w = (Ok (), left)
      ∧ Main.run is_file_not_found message argv w
        = Main.Finished (Main.Exit 0)
            ["Word statistics extracted and saved to " +:+ output_file] left.
Proof.
  destruct argv as [|name [|path [|more argv]]]; try done.
  unfold Main.run, BookAnalyzer.init.
  destruct (get_chapters path) as [chs|] eqn:Hchs;
    cbv [or_raise mbind result_bind mret result_ret].
  - destruct (BookAnalyzer.write_statistics _ _ w) as [[[]|e] w'] eqn:Hrun.
    + intros _. pose proof Hrun as Hleft.
      rewrite write_statistics_unfold, resolve_given_path in Hleft.
      destruct (BookAnalyzer.token_counts _) as [tc|e]; [|done].
      unfold File.with_open_w in Hleft. case_decide; [done|].
      injection Hleft as _ <-.
      exists name, path, chs. eexists.
      split; [done|]. split; [done|]. split; [exact Hrun|reflexivity].
    + intros Hend.
      by destruct (handle_changes_nothing is_file_not_found message e w')
        as [_ Hne].
  - intros Hend.
    by destruct (handle_changes_nothing is_file_not_found message
                   ExtractionError w) as [_ Hne].
Qed.

Lemma script_exit_zero_leaves_report_witness :
  ∃ text,
    @Main.run Stub.total (λ _, false) (λ _, "") ["analyzer"; "book.epub"]
      Stub.empty_world
    = Main.Finished (Main.Exit 0)
        ["Word statistics extracted and saved to book.epub_word_stats.md"]
        (World {["book.epub_word_stats.md" := text]} ∅).
Proof.
  destruct (@script_exit_zero_leaves_report Stub.total (λ _, false) (λ _, "")
              ["analyzer"; "book.epub"] Stub.empty_world eq_refl)
    as (name & path & chs & text & Hargv & _ & _ & Hrun).
  injection Hargv as <- <-. exists text. exact Hrun.
Defined.

(** ** The text that the flat script costs *)

Section FlatTextFacts.

Lemma length_append (s t : string) :
  String.length (s +:+ t) = String.length s + String.length t.
Proof.
  induction s as [|c s IH]; [done|].
  change (S (String.length (s +:+ t)) = S (String.length s + String.length t)).
  by rewrite IH.
Qed.

Lemma join_length (sep : string) (xs : list string) :
  String.length (Py.join sep xs)
  = sum_list (String.length <$> xs) + String.length sep * (length xs - 1).
Proof.
  induction xs as [|x [|y xs] IH].
  - simpl. lia.
  - simpl. unfold id. lia.
  - rewrite join_cons_cons, !length_append, IH.
    rewrite !fmap_cons. simpl. unfold id. lia.
Qed.

Lemma chars_lengths (s : string) :
  sum_list (String.length <$> Py.chars s) = String.length s
  ∧ length (Py.chars s) = String.length s.
Proof.
  unfold Py.chars.
  assert (length (String.list_ascii_of_string s) = String.length s) as <-.
  { induction s as [|c s IH]; [done|]. simpl. by rewrite IH. }
  rewrite length_fmap. split; [|done].
  induction (String.list_ascii_of_string s) as [|c l IH]; [done|].
  rewrite !fmap_cons.
  change (1 + sum_list (String.length <$> ((λ c, String c "") <$> l))
          = S (length l)).
  by rewrite IH.
Qed.

Lemma spaced_out_length (s : string) :
  String.length (Py.join " " (Py.chars s)) = 2 * String.length s - 1.
Proof.
  rewrite join_length. destruct (chars_lengths s) as [-> ->]. simpl. lia.
Qed.

End FlatTextFacts.

(** X16. The text that [calculate_book_cost] of the flat script gives to
    the encoder has, for a chapter of n characters, 2n - 1 characters (the
    characters of the chapter with a space between each two), and one more
    space between each two chapters: it is about twice as long as the
    book. *)
Theorem flat_full_text_length (flat : EpubWordAnalyzer.t) :
  String.length (EpubWordAnalyzer.full_text flat)
  = sum_list ((λ chapter, 2 * String.length chapter - 1)
                <$> EpubWordAnalyzer.chapters flat)
    + (length (EpubWordAnalyzer.chapters flat) - 1).
Proof.
  unfold EpubWordAnalyzer.full_text. rewrite join_length, length_fmap.
  rewrite <- list_fmap_compose. simpl. f_equal; [|lia].
  f_equal. apply list_fmap_ext. intros i chapter _. simpl.
  apply spaced_out_length.
Qed.
